(** * argo-events: GCP cloud-function trigger and controller configuration

    A shallow embedding of
    - [sensors/triggers/gcp-cloud-function/gcp-cloud-function.go]
      (module [gcp_cloud_function]) and
    - [controllers/config.go] (module [controllers]),
    together with the properties of the trigger pipeline and of the
    version lookup that the specification states.

    Conventions.
    - A Go pointer [*T] is an [option T]; [None] is [nil].
    - A Go [string] is a [string]; a [[]byte] is a [list byte].
    - A Go map is a [gmap]; a nil map is [None] of [option (gmap _ _)].
    - A Go function returning [(T, error)] returns an [outcome T]:
      [Ret v] for [(v, nil)], [Fail e] for [(nil, e)], and [Panic] for a
      run-time panic (nil dereference, store into a nil map).
    - Calls that leave the file (secret volume, file system, Google
      client, the [triggers] helpers) are answered by a record of
      functions, [Deps], and are written to a call log in the state. *)

From Stdlib Require Import Strings.String Strings.Ascii Strings.Byte Lists.List.
From stdpp Require Import base option gmap strings list.
Import ListNotations.
Local Open Scope string_scope.

(** ** Go errors *)

(** The error values the two files build or test. [errors_Wrap] is
    [github.com/pkg/errors.Wrap] applied to a non-nil cause;
    [errors_New] also stands for [fmt.Errorf] without [%w]. *)
Inductive error : Type :=
  | ErrNotExist
  | ErrPermission
  | errors_New (msg : string)
  | errors_Wrap (cause : error) (msg : string)
  | PathError (op path : string) (cause : error)
  | UnsupportedTypeError (ty : string)
  | context_Canceled
  | context_DeadlineExceeded.

#[global] Instance error_eq_dec : EqDecision error.
Proof. solve_decision. Defined.

(** [err.Error()] *)
Fixpoint Error (e : error) : string :=
  match e with
  | ErrNotExist => "file does not exist"
  | ErrPermission => "permission denied"
  | errors_New msg => msg
  | errors_Wrap cause msg => msg ++ ": " ++ Error cause
  | PathError op path cause => op ++ " " ++ path ++ ": " ++ Error cause
  | UnsupportedTypeError ty => "json: unsupported type: " ++ ty
  | context_Canceled => "context canceled"
  | context_DeadlineExceeded => "context deadline exceeded"
  end.

(** [errors.Is(err, target)] for a non-nil [err]: walks the chain of
    causes. On a nil [err] it is false; the callers below test that
    case apart. *)
Fixpoint errors_Is (e target : error) : bool :=
  bool_decide (e = target) ||
  match e with
  | errors_Wrap cause _ => errors_Is cause target
  | PathError _ _ cause => errors_Is cause target
  | _ => false
  end.

(** ** Results of Go calls *)

Inductive outcome (A : Type) : Type :=
  | Ret (a : A)
  | Fail (e : error)
  | Panic (why : string).
Arguments Ret {A} a.
Arguments Fail {A} e.
Arguments Panic {A} why.

Definition nil_dereference : string :=
  "invalid memory address or nil pointer dereference".
Definition nil_map_assignment : string :=
  "assignment to entry in nil map".

(** ** Declarations of other packages

    The structs below are declared outside the two files; only the
    fields the files read are kept. *)

Definition bytes : Type := list byte.

(** [k8s.io/api/core/v1.SecretKeySelector] *)
Module corev1.
Record SecretKeySelector : Type := {
  Name : string;
  Key : string
}.
End corev1.

(** [pkg/apis/common]: the trigger type is a string. *)
Module apicommon.
Definition TriggerType : Type := string.
End apicommon.

(** [pkg/apis/sensor/v1alpha1] *)
Module v1alpha1.
(** Modelled from the spec: the Event of section 3, a source name
    with an opaque payload. *)
Record Event : Type := {
  Source : string;
  Data : bytes
}.

(** Modelled from the spec: the Parameter Binding of section 3. *)
Record TriggerParameterSource : Type := {
  DependencyName : string;
  DataKey : string;
  Value : option string
}.

Record TriggerParameter : Type := {
  Src : option TriggerParameterSource;
  Dest : string;
  Operation : string
}.

Record GCPCloudFunctionTrigger : Type := {
  CredentialsPath : option corev1.SecretKeySelector;
  FunctionName : string;
  (** [[]TriggerParameter]: [None] is the nil slice. *)
  Payload : option (list TriggerParameter);
  Parameters : option (list TriggerParameter)
}.

Record TriggerTemplate : Type := {
  Name : string;
  GCPCloudFunction : option GCPCloudFunctionTrigger
}.

Record Trigger : Type := {
  Template : option TriggerTemplate
}.

Record Sensor : Type := {
  SensorName : string
}.
End v1alpha1.

(** [google.golang.org/api/cloudfunctions/v1] and [api/option] *)
Module cloudfunctions.
(** A client is known by its identity only. *)
Record Service : Type := { handle : nat }.

Record CallFunctionRequest : Type := { Data : string }.

Record CallFunctionResponse : Type := {
  ExecutionId : string;
  Result : string;
  ResponseError : string
}.

Inductive ClientOption : Type :=
  | WithCredentialsFile (filename : string).
End cloudfunctions.

(** [go.uber.org/zap]: a sugared logger is the list of the fields
    added to it; the logger handed to the constructor is not nil. *)
Module zap.
Record SugaredLogger : Type := { fields : list (string * string) }.

Definition With (l : SugaredLogger) (key value : string) : SugaredLogger :=
  {| fields := fields l ++ [(key, value)] |}.
End zap.

(** [context.Context]: the only thing a callee can ask of a context is
    whether it is done, and why. [Err] is what [ctx.Err()] answers while
    the call it was given to is in flight: [None] as long as the context
    is live, [context_Canceled] or [context_DeadlineExceeded] once it was
    cancelled or its deadline has passed. *)
Module context.
Record Context : Type := { Err : option error }.

Definition Background : Context := {| Err := None |}.
End context.

(** ** Values of type [interface{}]

    A resource or a response travels as [interface{}]: a dynamic type
    with a value of that type, or the nil interface. *)
Inductive iface : Type :=
  | iface_nil
  | iface_bool (b : bool)
  | iface_chan (elem : string)
  | iface_GCPCloudFunctionTrigger (p : option v1alpha1.GCPCloudFunctionTrigger)
  | iface_CallFunctionResponse (p : option cloudfunctions.CallFunctionResponse).

(** The events of one dispatch, [map[string]*v1alpha1.Event]. *)
Abbreviation Events := (gmap string v1alpha1.Event).

(** ** What the files call

    [Deps] answers every call that leaves the two files. The constants
    [LabelTriggerType] (package [logging]) and [GCPFunctionTrigger]
    (package [apicommon]) are declared elsewhere and are fields too. *)
Record Deps : Type := {
  LabelTriggerType : string;
  GCPFunctionTrigger : apicommon.TriggerType;
  (** [common.GetSecretFromVolume] *)
  GetSecretFromVolume : option corev1.SecretKeySelector -> string + error;
  (** the error of [os.Stat] *)
  os_Stat : string -> option error;
  (** [cloudfunctions.NewService(context.Background(), opts...)] *)
  cloudfunctions_NewService :
    list cloudfunctions.ClientOption -> cloudfunctions.Service + error;
  (** [encoding/json] on the structs declared elsewhere *)
  json_encode_GCPCloudFunctionTrigger : v1alpha1.GCPCloudFunctionTrigger -> bytes;
  json_encode_CallFunctionResponse : cloudfunctions.CallFunctionResponse -> bytes;
  json_Unmarshal_GCPCloudFunctionTrigger :
    bytes -> option v1alpha1.GCPCloudFunctionTrigger + error;
  (** Modelled from the spec: [triggers.ApplyParams] is not among the
      sources; section 4.1 gives its contract
      [apply(templateBytes, bindings, eventSet)], resolved bytes or an
      error, pure and free of side effects. *)
  ApplyParams : bytes -> list v1alpha1.TriggerParameter -> Events -> bytes + error;
  (** Modelled from the spec: [triggers.ConstructPayload] is not among
      the sources; section 4.2 gives its contract
      [build(bindings, eventSet)], payload bytes or an error. *)
  ConstructPayload : Events -> list v1alpha1.TriggerParameter -> bytes + error;
  (** [Projects.Locations.Functions.Call(name, req)...Do()] on a client.
      The first argument is the context attached to the call with
      [.Context(ctx)], [None] when the call chain attaches none; a
      transport can only react to a context it was given. *)
  Functions_Call_Do :
    option context.Context -> cloudfunctions.Service -> string ->
    cloudfunctions.CallFunctionRequest ->
    cloudfunctions.CallFunctionResponse + error
}.

(** [json.Marshal] of an [interface{}] value. A nil interface and a
    nil pointer encode as [null], a bool as [true] or [false], a struct
    pointer as its struct; a channel value is not encodable. *)
Definition json_Marshal (d : Deps) (v : iface) : bytes + error :=
  match v with
  | iface_nil => inl (list_byte_of_string "null")
  | iface_bool true => inl (list_byte_of_string "true")
  | iface_bool false => inl (list_byte_of_string "false")
  | iface_chan elem => inr (UnsupportedTypeError ("chan " ++ elem))
  | iface_GCPCloudFunctionTrigger None => inl (list_byte_of_string "null")
  | iface_GCPCloudFunctionTrigger (Some g) =>
      inl (json_encode_GCPCloudFunctionTrigger d g)
  | iface_CallFunctionResponse None => inl (list_byte_of_string "null")
  | iface_CallFunctionResponse (Some r) =>
      inl (json_encode_CallFunctionResponse d r)
  end.

(** ** State and the monad of the embedding *)

(** A call that left the file, with its arguments. *)
Inductive call : Type :=
  | call_GetSecretFromVolume (sel : option corev1.SecretKeySelector)
  | call_Stat (path : string)
  | call_NewService (opts : list cloudfunctions.ClientOption)
  | call_ApplyParams (resource : bytes) (params : list v1alpha1.TriggerParameter)
  | call_ConstructPayload (params : list v1alpha1.TriggerParameter)
  | call_FunctionsCall (attached : option context.Context)
      (svc : cloudfunctions.Service) (name : string)
      (req : cloudfunctions.CallFunctionRequest).

(** The client cache [map[string]*cloudfunctions.Service] is handed to
    the constructor by reference: its contents are state. [calls] is the
    log of the calls made so far, oldest first. *)
Record state : Type := {
  gcpClients : option (gmap string (option cloudfunctions.Service));
  calls : list call
}.

Definition M (A : Type) : Type := state -> outcome A * state.

Definition ret {A} (a : A) : M A := fun s => (Ret a, s).
Definition fail {A} (e : error) : M A := fun s => (Fail e, s).
Definition panic {A} (why : string) : M A := fun s => (Panic why, s).

Definition bind {A B} (m : M A) (k : A -> M B) : M B :=
  fun s =>
    match m s with
    | (Ret a, s') => k a s'
    | (Fail e, s') => (Fail e, s')
    | (Panic why, s') => (Panic why, s')
    end.

Notation "'let!' x ':=' m 'in' k" := (bind m (fun x => k))
  (at level 10, x pattern, m at level 100, k at level 200,
   format "'[v' 'let!'  x  ':='  m  'in' '/' k ']'").
Notation "m ;;; k" := (bind m (fun _ => k))
  (at level 100, k at level 200, right associativity).

(** [*p] *)
Definition deref {A} (p : option A) : M A :=
  match p with
  | Some a => ret a
  | None => panic nil_dereference
  end.

Definition log (c : call) : M unit :=
  fun s => (Ret tt, {| gcpClients := gcpClients s; calls := calls s ++ [c] |}).

(** [v, ok := gcpClients[name]]: a nil map has no entry. *)
Definition map_lookup (name : string) : M (option cloudfunctions.Service * bool) :=
  fun s =>
    match gcpClients s with
    | None => (Ret (None, false), s)
    | Some m =>
        match m !! name with
        | Some v => (Ret (v, true), s)
        | None => (Ret (None, false), s)
        end
    end.

(** [gcpClients[name] = v]: storing into a nil map panics. *)
Definition map_store (name : string) (v : option cloudfunctions.Service) : M unit :=
  fun s =>
    match gcpClients s with
    | None => (Panic nil_map_assignment, s)
    | Some m => (Ret tt, {| gcpClients := Some (<[name := v]> m); calls := calls s |})
    end.

(** A call answered by [Deps], logged. *)
Definition ask {A} (c : call) (answer : A) : M A := log c ;;; ret answer.

(** ** sensors/triggers/gcp-cloud-function/gcp-cloud-function.go *)

Module gcp_cloud_function.

(** The trigger built by the constructor. *)
Record GCPCloudFunctionTrigger : Type := {
  Sensor : option v1alpha1.Sensor;
  Trigger : option v1alpha1.Trigger;
  Service : option cloudfunctions.Service;
  Logger : zap.SugaredLogger
}.

Section WithDeps.
Variable d : Deps.

(** [NewGCPCloudFunctionTrigger]. The client looked up in the map is
    the variable [gcpClient] of the function body. On a miss the block
    of the [if] declares, with [:=], a variable of the same name for the
    client it creates ([gcpClient'] below); that one is stored in the
    map, and the block ends. The struct literal of the [return] reads
    the variable of the function body. *)
Definition NewGCPCloudFunctionTrigger
    (sensor : option v1alpha1.Sensor) (trigger : option v1alpha1.Trigger)
    (logger : zap.SugaredLogger) : M GCPCloudFunctionTrigger :=
  let! tr := deref trigger in
  let! tpl := deref (v1alpha1.Template tr) in
  let gcptrigger := v1alpha1.GCPCloudFunction tpl in
  let! (gcpClient, ok) := map_lookup (v1alpha1.Name tpl) in
  (if negb ok then
     let! g := deref gcptrigger in
     let! r := ask (call_GetSecretFromVolume (v1alpha1.CredentialsPath g))
                 (GetSecretFromVolume d (v1alpha1.CredentialsPath g)) in
     match r with
     | inr err => fail (errors_Wrap err "can not find service account path key")
     | inl credentialsPath =>
         let! err := ask (call_Stat credentialsPath) (os_Stat d credentialsPath) in
         match err with
         | Some e =>
             if errors_Is e ErrNotExist
             then fail (errors_Wrap e
                          "can not find service account file from CredentialsPath")
             else ret tt
         | None => ret tt
         end ;;;
         let opts := [cloudfunctions.WithCredentialsFile credentialsPath] in
         let! r' := ask (call_NewService opts) (cloudfunctions_NewService d opts) in
         match r' with
         | inr err => fail (errors_Wrap err "failed to create a GCP service")
         | inl gcpClient' => map_store (v1alpha1.Name tpl) (Some gcpClient')
         end
     end
   else ret tt) ;;;
  ret {| Service := gcpClient;
         Sensor := sensor;
         Trigger := trigger;
         Logger := zap.With logger (LabelTriggerType d) (GCPFunctionTrigger d) |}.

(** [GetTriggerType] *)
Definition GetTriggerType (t : GCPCloudFunctionTrigger) : apicommon.TriggerType :=
  GCPFunctionTrigger d.

(** [FetchResource]: the trigger's own template, as [interface{}]. *)
Definition FetchResource (t : GCPCloudFunctionTrigger) (ctx : context.Context)
    : M iface :=
  let! tr := deref (Trigger t) in
  let! tpl := deref (v1alpha1.Template tr) in
  ret (iface_GCPCloudFunctionTrigger (v1alpha1.GCPCloudFunction tpl)).

(** [ApplyResourceParameters]. The resource is marshalled first; the
    bindings are those of the trigger's own template. *)
Definition ApplyResourceParameters (t : GCPCloudFunctionTrigger)
    (events : Events) (resource : iface) : M iface :=
  match json_Marshal d resource with
  | inr err =>
      fail (errors_Wrap err
              "failed to marshal the GCP cloud function trigger resource")
  | inl resourceBytes =>
      let! tr := deref (Trigger t) in
      let! tpl := deref (v1alpha1.Template tr) in
      let! g := deref (v1alpha1.GCPCloudFunction tpl) in
      match v1alpha1.Parameters g with
      | Some parameters =>
          let! r := ask (call_ApplyParams resourceBytes parameters)
                      (ApplyParams d resourceBytes parameters events) in
          match r with
          | inr err => fail err
          | inl updatedResourceBytes =>
              match json_Unmarshal_GCPCloudFunctionTrigger d updatedResourceBytes with
              | inr err =>
                  fail (errors_Wrap err
                    "failed to unmarshal the updated GCP cloud function trigger resource after applying resource parameters")
              | inl ht => ret (iface_GCPCloudFunctionTrigger ht)
              end
          end
      | None => ret resource
      end
  end.

(** [Execute]. The type assertion succeeds on the dynamic type
    [*v1alpha1.GCPCloudFunctionTrigger] only; [ctx] is not mentioned in
    the body, and the call chain [Call(name, &request).Do()] attaches no
    context. *)
Definition Execute (t : GCPCloudFunctionTrigger) (ctx : context.Context)
    (events : Events) (resource : iface) : M iface :=
  match resource with
  | iface_GCPCloudFunctionTrigger trigger =>
      let! trigger := deref trigger in
      match v1alpha1.Payload trigger with
      | None => fail (errors_New "payload parameters are not specified")
      | Some payloadParams =>
          let! r := ask (call_ConstructPayload payloadParams)
                      (ConstructPayload d events payloadParams) in
          match r with
          | inr err => fail err
          | inl payload =>
              let request :=
                {| cloudfunctions.Data := string_of_list_byte payload |} in
              let! svc := deref (Service t) in
              let name := v1alpha1.FunctionName trigger in
              let! r' := ask (call_FunctionsCall None svc name request)
                           (Functions_Call_Do d None svc name request) in
              match r' with
              | inr err => fail err
              | inl response => ret (iface_CallFunctionResponse (Some response))
              end
          end
      end
  | _ => fail (errors_New "failed to interpret the trigger resource")
  end.

(** [ApplyPolicy]: the error it returns, [None] for [nil]. *)
Definition ApplyPolicy (t : GCPCloudFunctionTrigger) (ctx : context.Context)
    (resource : iface) : M (option error) :=
  ret None.

End WithDeps.
End gcp_cloud_function.

(** ** A concrete deployment

    One sensor with one trigger, [bill], that calls the cloud function
    [billFn]; used to run the definitions above. *)
Module scenario.

Definition credentials : corev1.SecretKeySelector :=
  {| corev1.Name := "gcp-credentials"; corev1.Key := "key.json" |}.

Definition amount : v1alpha1.TriggerParameter :=
  {| v1alpha1.Src := Some {| v1alpha1.DependencyName := "order-event";
                             v1alpha1.DataKey := "amount";
                             v1alpha1.Value := None |};
     v1alpha1.Dest := "amount";
     v1alpha1.Operation := "overwrite" |}.

Definition billFn : v1alpha1.GCPCloudFunctionTrigger :=
  {| v1alpha1.CredentialsPath := Some credentials;
     v1alpha1.FunctionName := "billFn";
     v1alpha1.Payload := Some [amount];
     v1alpha1.Parameters := None |}.

(** The same function without a payload specification. *)
Definition billFn_no_payload : v1alpha1.GCPCloudFunctionTrigger :=
  {| v1alpha1.CredentialsPath := Some credentials;
     v1alpha1.FunctionName := "billFn";
     v1alpha1.Payload := None;
     v1alpha1.Parameters := None |}.

(** The same function with one parameter binding. *)
Definition billFn_bound : v1alpha1.GCPCloudFunctionTrigger :=
  {| v1alpha1.CredentialsPath := Some credentials;
     v1alpha1.FunctionName := "billFn";
     v1alpha1.Payload := Some [amount];
     v1alpha1.Parameters := Some [amount] |}.

Definition template_of (g : v1alpha1.GCPCloudFunctionTrigger) : v1alpha1.TriggerTemplate :=
  {| v1alpha1.Name := "bill"; v1alpha1.GCPCloudFunction := Some g |}.

Definition trigger_of (g : v1alpha1.GCPCloudFunctionTrigger) : v1alpha1.Trigger :=
  {| v1alpha1.Template := Some (template_of g) |}.

Definition sensor : v1alpha1.Sensor := {| v1alpha1.SensorName := "orders" |}.

Definition logger : zap.SugaredLogger := {| zap.fields := [] |}.

Definition order_event : v1alpha1.Event :=
  {| v1alpha1.Source := "order-event"; v1alpha1.Data := list_byte_of_string "amount=42" |}.

Definition events : Events := {[ "order-event" := order_event ]}.

Definition client : cloudfunctions.Service := {| cloudfunctions.handle := 1 |}.

Definition cached_client : cloudfunctions.Service := {| cloudfunctions.handle := 7 |}.

Definition OK : cloudfunctions.CallFunctionResponse :=
  {| cloudfunctions.ExecutionId := "e-1";
     cloudfunctions.Result := "OK";
     cloudfunctions.ResponseError := "" |}.

Definition secrets_dir : string := "/argo-events/secrets/".

(** How the secret volume and the credentials file may look. *)
Inductive volume : Type :=
  | volume_ready
  | volume_without_key
  | volume_without_file
  | volume_unreadable.

(** A deployment whose secret volume is in the given condition. The
    transport honours a context that is attached to a call: it answers
    with the context's error once the context is done. The codecs are
    stand-ins, one line per struct: the decoder reads back the one
    encoding that a template with bindings has here, reads [null] as the
    nil pointer, and refuses everything else. *)
Definition deps (v : volume) : Deps :=
  {| LabelTriggerType := "triggerType";
     GCPFunctionTrigger := "GCPCloudFunction";
     GetSecretFromVolume := fun sel =>
       match v, sel with
       | volume_without_key, _ => inr (PathError "open" secrets_dir ErrNotExist)
       | _, None => inr (errors_New "secret selector is nil")
       | _, Some k => inl (secrets_dir ++ corev1.Name k ++ "/" ++ corev1.Key k)
       end;
     os_Stat := fun path =>
       match v with
       | volume_without_file => Some (PathError "stat" path ErrNotExist)
       | volume_unreadable => Some (PathError "stat" path ErrPermission)
       | _ => None
       end;
     cloudfunctions_NewService := fun _ => inl client;
     json_encode_GCPCloudFunctionTrigger := fun g =>
       list_byte_of_string ("functionName=" ++ v1alpha1.FunctionName g);
     json_encode_CallFunctionResponse := fun r =>
       list_byte_of_string ("result=" ++ cloudfunctions.Result r);
     json_Unmarshal_GCPCloudFunctionTrigger := fun b =>
       let text := string_of_list_byte b in
       if String.eqb text "" then inr (errors_New "unexpected end of JSON input")
       else if String.eqb text "null" then inl None
       else if String.eqb text "functionName=billFn" then inl (Some billFn_bound)
       else inr (errors_New
                   "json: cannot unmarshal into Go value of type v1alpha1.GCPCloudFunctionTrigger");
     ApplyParams := fun b _ _ => inl b;
     ConstructPayload := fun _ _ => inl (list_byte_of_string "amount=42");
     Functions_Call_Do := fun attached _ _ _ =>
       match attached with
       | Some {| context.Err := Some e |} => inr e
       | _ => inl OK
       end |}.

Definition empty_cache : state :=
  {| gcpClients := Some ∅; calls := [] |}.

Definition warm_cache : state :=
  {| gcpClients := Some {[ "bill" := Some cached_client ]}; calls := [] |}.

(** The trigger as the constructor returns it on a warm cache. *)
Definition warm_trigger (g : v1alpha1.GCPCloudFunctionTrigger)
    : gcp_cloud_function.GCPCloudFunctionTrigger :=
  {| gcp_cloud_function.Sensor := Some sensor;
     gcp_cloud_function.Trigger := Some (trigger_of g);
     gcp_cloud_function.Service := Some cached_client;
     gcp_cloud_function.Logger :=
       zap.With logger "triggerType" "GCPCloudFunction" |}.

Definition cancelled : context.Context :=
  {| context.Err := Some context_Canceled |}.

Definition expired : context.Context :=
  {| context.Err := Some context_DeadlineExceeded |}.

End scenario.

(** ** controllers/config.go *)

Module controllers.

Record NatsStreamingVersion : Type := {
  Version : string;
  NatsStreamingImage : string;
  MetricsExporterImage : string
}.

Record NatsStreamingConfig : Type := {
  Versions : list NatsStreamingVersion
}.

(** The JetStream half of the file has the same shape; its field names
    carry a prefix here because [Version] and [Versions] are taken. *)
Record JetStreamVersion : Type := {
  JetStream_Version : string;
  NatsImage : string;
  ConfigReloaderImage : string;
  JetStream_MetricsExporterImage : string;
  StartCommand : string
}.

Record JetStreamConfig : Type := {
  Settings : string;
  JetStream_Versions : list JetStreamVersion
}.

Record EventBusConfig : Type := {
  NATS : option NatsStreamingConfig;
  JetStream : option JetStreamConfig
}.

Record GlobalConfig : Type := {
  EventBus : option EventBusConfig
}.

(** The double quote, as a one-character string. *)
Definition dquote : string :=
  String (Ascii false true false false false true false false) EmptyString.

(** [strings.Join(elems, sep)] *)
Definition strings_Join (elems : list string) (sep : string) : string :=
  String.concat sep elems.

(** [fmt.Errorf] with a format that has no [%w]. *)
Definition fmt_Errorf (text : string) : error := errors_New text.

(** [for _, v := range vs { result = append(result, v.Version) }] *)
Definition append_versions (vs : list NatsStreamingVersion) (result : list string)
    : list string :=
  fold_left (fun result v => (result ++ [Version v])%list) vs result.

(** [supportedNatsStreamingVersions]; the receiver is not nil. *)
Definition supportedNatsStreamingVersions (g : GlobalConfig) : list string :=
  let result := [] in
  match EventBus g with
  | None => result
  | Some eb =>
      match NATS eb with
      | None => result
      | Some nats => append_versions (Versions nats) result
      end
  end.

(** [for _, v := range vs { result = append(result, v.Version) }] on
    the JetStream versions. *)
Definition append_jetstream_versions (vs : list JetStreamVersion)
    (result : list string) : list string :=
  fold_left (fun result v => (result ++ [JetStream_Version v])%list) vs result.

(** [supportedJetStreamVersions] *)
Definition supportedJetStreamVersions (g : GlobalConfig) : list string :=
  let result := [] in
  match EventBus g with
  | None => result
  | Some eb =>
      match JetStream eb with
      | None => result
      | Some js => append_jetstream_versions (JetStream_Versions js) result
      end
  end.

(** The loop of [GetNatsStreamingVersion]: the first entry whose
    version is the wanted one ends it with a copy of that entry. *)
Fixpoint first_version (version : string) (vs : list NatsStreamingVersion)
    : option NatsStreamingVersion :=
  match vs with
  | [] => None
  | r :: rest =>
      if decide (Version r = version) then Some r
      else first_version version rest
  end.

Fixpoint first_jetstream_version (version : string) (vs : list JetStreamVersion)
    : option JetStreamVersion :=
  match vs with
  | [] => None
  | r :: rest =>
      if decide (JetStream_Version r = version) then Some r
      else first_jetstream_version version rest
  end.

Section WithQuote.
(** [%q] of [fmt]: [strconv.Quote], of the Go library. *)
Variable strconv_Quote : string -> string.

Definition unsupported_version (version : string) (supported : list string) : error :=
  fmt_Errorf ("unsupported version " ++ strconv_Quote version ++
              ", supported versions: " ++
              strconv_Quote (strings_Join supported ",")).

(** [GetNatsStreamingVersion]; the receiver is not nil. [Ret r] is the
    pointer to the copy [r] with a nil error. *)
Definition GetNatsStreamingVersion (g : GlobalConfig) (version : string)
    : outcome NatsStreamingVersion :=
  match EventBus g with
  | None =>
      Fail (fmt_Errorf (dquote ++ "eventBus.nats" ++ dquote ++
                        " not found in the configuration"))
  | Some eb =>
      match NATS eb with
      | None =>
          Fail (fmt_Errorf (dquote ++ "eventBus.nats" ++ dquote ++
                            " not found in the configuration"))
      | Some nats =>
          if Nat.eqb (length (Versions nats)) 0
          then Fail (fmt_Errorf "nats streaming version configuration not found")
          else
            match first_version version (Versions nats) with
            | Some r => Ret r
            | None =>
                Fail (unsupported_version version
                        (supportedNatsStreamingVersions g))
            end
      end
  end.

(** [GetJetStreamVersion] *)
Definition GetJetStreamVersion (g : GlobalConfig) (version : string)
    : outcome JetStreamVersion :=
  match EventBus g with
  | None =>
      Fail (fmt_Errorf (dquote ++ "eventBus.jetstream" ++ dquote ++
                        " not found in the configuration"))
  | Some eb =>
      match JetStream eb with
      | None =>
          Fail (fmt_Errorf (dquote ++ "eventBus.jetstream" ++ dquote ++
                            " not found in the configuration"))
      | Some js =>
          if Nat.eqb (length (JetStream_Versions js)) 0
          then Fail (fmt_Errorf "jetstream version configuration not found")
          else
            match first_jetstream_version version (JetStream_Versions js) with
            | Some r => Ret r
            | None =>
                Fail (unsupported_version version
                        (supportedJetStreamVersions g))
            end
      end
  end.

End WithQuote.

(** [strconv.Quote] on text made of letters, digits, dots and dashes,
    as version strings are: the text between two double quotes. *)
Definition quote_plain (s : string) : string := dquote ++ s ++ dquote.

Definition v0_22 : NatsStreamingVersion :=
  {| Version := "0.22.1";
     NatsStreamingImage := "nats-streaming:0.22.1";
     MetricsExporterImage := "prometheus-nats-exporter:0.8.0" |}.

Definition v0_25 : NatsStreamingVersion :=
  {| Version := "0.25.2";
     NatsStreamingImage := "nats-streaming:0.25.2";
     MetricsExporterImage := "prometheus-nats-exporter:0.9.1" |}.

(** A second entry for 0.22.1, with another image. *)
Definition v0_22_mirror : NatsStreamingVersion :=
  {| Version := "0.22.1";
     NatsStreamingImage := "mirror/nats-streaming:0.22.1";
     MetricsExporterImage := "prometheus-nats-exporter:0.8.0" |}.

Definition config_of (vs : list NatsStreamingVersion) : GlobalConfig :=
  {| EventBus := Some {| NATS := Some {| Versions := vs |}; JetStream := None |} |}.

End controllers.

(** ** Vocabulary of the properties *)

(** The client cache has no entry under [name]. *)
Definition cache_miss (s : state) (name : string) : Prop :=
  match gcpClients s with
  | None => True
  | Some m => m !! name = None
  end.

(** The client cache holds [client] under [name]. *)
Definition cache_hit (s : state) (name : string)
    (client : option cloudfunctions.Service) : Prop :=
  exists m, gcpClients s = Some m /\ m !! name = Some client.

(** The state after the calls [made], the cache as it was. *)
Definition after_calls (s : state) (made : list call) : state :=
  {| gcpClients := gcpClients s; calls := (calls s ++ made)%list |}.

Definition is_client_construction (c : call) : bool :=
  match c with
  | call_NewService _ => true
  | _ => false
  end.

(** The dynamic type of the value is [*v1alpha1.GCPCloudFunctionTrigger]. *)
Definition is_GCPCloudFunctionTrigger (v : iface) : bool :=
  match v with
  | iface_GCPCloudFunctionTrigger _ => true
  | _ => false
  end.

(** The two ways in which the credentials of a template can be missing:
    the secret path does not resolve, or it resolves and [os.Stat]
    reports that the file does not exist. Each comes with the cause, the
    message the constructor wraps it in, and the calls made until then. *)
Inductive credentials_missing (d : Deps) (g : v1alpha1.GCPCloudFunctionTrigger)
    : error -> string -> list call -> Prop :=
  | secret_path_unresolved cause :
      GetSecretFromVolume d (v1alpha1.CredentialsPath g) = inr cause ->
      credentials_missing d g cause
        "can not find service account path key"
        [call_GetSecretFromVolume (v1alpha1.CredentialsPath g)]
  | credentials_file_absent path cause :
      GetSecretFromVolume d (v1alpha1.CredentialsPath g) = inl path ->
      os_Stat d path = Some cause ->
      errors_Is cause ErrNotExist = true ->
      credentials_missing d g cause
        "can not find service account file from CredentialsPath"
        [call_GetSecretFromVolume (v1alpha1.CredentialsPath g); call_Stat path].

(** The call hands a context to the function service. *)
Definition attaches_context (c : call) : bool :=
  match c with
  | call_FunctionsCall (Some _) _ _ _ => true
  | _ => false
  end.

(** The trigger [t] was built for the template [tpl] whose cloud
    function is [g]: none of the three pointers on the way is nil. *)
Definition trigger_for (t : gcp_cloud_function.GCPCloudFunctionTrigger)
    (g : v1alpha1.GCPCloudFunctionTrigger) : Prop :=
  exists tr tpl,
    gcp_cloud_function.Trigger t = Some tr /\
    v1alpha1.Template tr = Some tpl /\
    v1alpha1.GCPCloudFunction tpl = Some g.

(** ** Deployments with faults

    The deployment of [scenario] with the secret volume in order, where
    a chosen call fails with a chosen error. *)
Module faulty.

Record faults : Type := {
  NewService_error : option error;
  ApplyParams_error : option error;
  Unmarshal_error : option error;
  ConstructPayload_error : option error;
  Call_error : option error
}.

Definition none : faults :=
  {| NewService_error := None; ApplyParams_error := None;
     Unmarshal_error := None; ConstructPayload_error := None;
     Call_error := None |}.

Definition or_else {A} (fault : option error) (answer : A + error) : A + error :=
  match fault with
  | Some e => inr e
  | None => answer
  end.

Definition deps (f : faults) : Deps :=
  let d := scenario.deps scenario.volume_ready in
  {| LabelTriggerType := LabelTriggerType d;
     GCPFunctionTrigger := GCPFunctionTrigger d;
     GetSecretFromVolume := GetSecretFromVolume d;
     os_Stat := os_Stat d;
     cloudfunctions_NewService := fun opts =>
       or_else (NewService_error f) (cloudfunctions_NewService d opts);
     json_encode_GCPCloudFunctionTrigger := json_encode_GCPCloudFunctionTrigger d;
     json_encode_CallFunctionResponse := json_encode_CallFunctionResponse d;
     json_Unmarshal_GCPCloudFunctionTrigger := fun b =>
       or_else (Unmarshal_error f) (json_Unmarshal_GCPCloudFunctionTrigger d b);
     ApplyParams := fun b ps ev =>
       or_else (ApplyParams_error f) (ApplyParams d b ps ev);
     ConstructPayload := fun ev ps =>
       or_else (ConstructPayload_error f) (ConstructPayload d ev ps);
     Functions_Call_Do := fun attached svc name req =>
       or_else (Call_error f) (Functions_Call_Do d attached svc name req) |}.

Definition unauthorized : error := errors_New "googleapi: Error 401: Unauthorized".

Definition no_such_event : error := errors_New "dependency order-event not found".

Definition bad_json : error := errors_New "invalid character 'x' looking for beginning of value".

(** A client cache never made: the nil map. *)
Definition nil_cache : state := {| gcpClients := None; calls := [] |}.

(** A cache that holds the client of another trigger. *)
Definition other_cache : state :=
  {| gcpClients := Some {[ "mail" := Some scenario.cached_client ]}; calls := [] |}.

(** The trigger as the constructor returns it on a first use. *)
Definition cold_trigger (g : v1alpha1.GCPCloudFunctionTrigger)
    : gcp_cloud_function.GCPCloudFunctionTrigger :=
  {| gcp_cloud_function.Sensor := Some scenario.sensor;
     gcp_cloud_function.Trigger := Some (scenario.trigger_of g);
     gcp_cloud_function.Service := None;
     gcp_cloud_function.Logger :=
       zap.With scenario.logger "triggerType" "GCPCloudFunction" |}.

Definition credentials_file : string :=
  "/argo-events/secrets/gcp-credentials/key.json".

End faulty.

(** The three messages the constructor wraps a cause in. *)
Definition constructor_messages : list string :=
  [ "can not find service account path key";
    "can not find service account file from CredentialsPath";
    "failed to create a GCP service" ].

(** The calls a construction can make for a template's credentials
    that resolve to [path], in their order. *)
Definition construction_calls (g : v1alpha1.GCPCloudFunctionTrigger) (path : string)
    : list call :=
  [ call_GetSecretFromVolume (v1alpha1.CredentialsPath g);
    call_Stat path;
    call_NewService [cloudfunctions.WithCredentialsFile path] ].

(** The calls of one execution of [trigger] on [svc] with [payload]. *)
Definition execution_calls (trigger : v1alpha1.GCPCloudFunctionTrigger)
    (params : list v1alpha1.TriggerParameter) (svc : cloudfunctions.Service)
    (payload : bytes) : list call :=
  [ call_ConstructPayload params;
    call_FunctionsCall None svc (v1alpha1.FunctionName trigger)
      {| cloudfunctions.Data := string_of_list_byte payload |} ].

Module jetstream.

Definition v2_8 : controllers.JetStreamVersion :=
  {| controllers.JetStream_Version := "2.8.1";
     controllers.NatsImage := "nats:2.8.1";
     controllers.ConfigReloaderImage := "nats-server-config-reloader:0.7.0";
     controllers.JetStream_MetricsExporterImage := "prometheus-nats-exporter:0.9.1";
     controllers.StartCommand := "/nats-server" |}.

Definition v2_9 : controllers.JetStreamVersion :=
  {| controllers.JetStream_Version := "2.9.1";
     controllers.NatsImage := "nats:2.9.1";
     controllers.ConfigReloaderImage := "nats-server-config-reloader:0.7.0";
     controllers.JetStream_MetricsExporterImage := "prometheus-nats-exporter:0.9.1";
     controllers.StartCommand := "/nats-server" |}.

(** A configuration with both sections. *)
Definition config_of (nats : list controllers.NatsStreamingVersion)
    (js : list controllers.JetStreamVersion) : controllers.GlobalConfig :=
  {| controllers.EventBus :=
       Some {| controllers.NATS := Some {| controllers.Versions := nats |};
               controllers.JetStream :=
                 Some {| controllers.Settings := "max_file_store: 1GB";
                         controllers.JetStream_Versions := js |} |} |}.

End jetstream.

(** The configuration with its [NATS] section replaced. *)
Definition set_NATS (g : controllers.GlobalConfig)
    (nats : option controllers.NatsStreamingConfig) : controllers.GlobalConfig :=
  {| controllers.EventBus :=
       match controllers.EventBus g with
       | None => None
       | Some eb => Some {| controllers.NATS := nats;
                            controllers.JetStream := controllers.JetStream eb |}
       end |}.

(** The configuration with its [JetStream] section replaced. *)
Definition set_JetStream (g : controllers.GlobalConfig)
    (js : option controllers.JetStreamConfig) : controllers.GlobalConfig :=
  {| controllers.EventBus :=
       match controllers.EventBus g with
       | None => None
       | Some eb => Some {| controllers.NATS := controllers.NATS eb;
                            controllers.JetStream := js |}
       end |}.

(** ** The parameter stage with a helper that can see the world

    [triggers.ApplyParams] is not among the sources. In [Deps] it is a
    function of its three arguments. Here it is any procedure: besides
    its arguments it can read and change an environment [E] (a clock, a
    random source, globals of the process), so that what
    [ApplyResourceParameters] does with the helper can be told apart
    from what is asked of the helper. *)
Module parameter_stage.

Section WithHelper.
Context {E : Type}.
Variable d : Deps.
Variable apply_params :
  bytes -> list v1alpha1.TriggerParameter -> Events -> E -> (bytes + error) * E.

(** [ApplyResourceParameters], lines 74 to 92, with the environment
    handed to the helper and taken back from it. *)
Definition ApplyResourceParameters (t : gcp_cloud_function.GCPCloudFunctionTrigger)
    (events : Events) (resource : iface) (e : E) (s : state)
    : outcome iface * (E * state) :=
  match json_Marshal d resource with
  | inr err =>
      (Fail (errors_Wrap err
               "failed to marshal the GCP cloud function trigger resource"),
       (e, s))
  | inl resourceBytes =>
      match gcp_cloud_function.Trigger t with
      | None => (Panic nil_dereference, (e, s))
      | Some tr =>
          match v1alpha1.Template tr with
          | None => (Panic nil_dereference, (e, s))
          | Some tpl =>
              match v1alpha1.GCPCloudFunction tpl with
              | None => (Panic nil_dereference, (e, s))
              | Some g =>
                  match v1alpha1.Parameters g with
                  | Some parameters =>
                      let (r, e') :=
                        apply_params resourceBytes parameters events e in
                      let s' :=
                        after_calls s [call_ApplyParams resourceBytes parameters] in
                      match r with
                      | inr err => (Fail err, (e', s'))
                      | inl updatedResourceBytes =>
                          match json_Unmarshal_GCPCloudFunctionTrigger d
                                  updatedResourceBytes with
                          | inr err =>
                              (Fail (errors_Wrap err
                                 "failed to unmarshal the updated GCP cloud function trigger resource after applying resource parameters"),
                               (e', s'))
                          | inl ht => (Ret (iface_GCPCloudFunctionTrigger ht), (e', s'))
                          end
                      end
                  | None => (Ret resource, (e, s))
                  end
              end
          end
      end
  end.

(** Modelled from the spec: what sections 4.1 and 8 ask of the
    parameter resolver, "repeated calls with identical inputs yield
    byte-identical output": the answer of the helper is the same in
    every environment. *)
Definition deterministic : Prop :=
  forall b ps ev e1 e2,
    fst (apply_params b ps ev e1) = fst (apply_params b ps ev e2).


End WithHelper.

(** A function as a helper: it leaves the environment alone. *)
Definition pure {E : Type}
    (f : bytes -> list v1alpha1.TriggerParameter -> Events -> bytes + error)
    : bytes -> list v1alpha1.TriggerParameter -> Events -> E -> (bytes + error) * E :=
  fun b ps ev e => (f b ps ev, e).

(** [d] with another function for [triggers.ApplyParams]. *)
Definition with_ApplyParams (d : Deps)
    (f : bytes -> list v1alpha1.TriggerParameter -> Events -> bytes + error) : Deps :=
  {| LabelTriggerType := LabelTriggerType d;
     GCPFunctionTrigger := GCPFunctionTrigger d;
     GetSecretFromVolume := GetSecretFromVolume d;
     os_Stat := os_Stat d;
     cloudfunctions_NewService := cloudfunctions_NewService d;
     json_encode_GCPCloudFunctionTrigger := json_encode_GCPCloudFunctionTrigger d;
     json_encode_CallFunctionResponse := json_encode_CallFunctionResponse d;
     json_Unmarshal_GCPCloudFunctionTrigger := json_Unmarshal_GCPCloudFunctionTrigger d;
     ApplyParams := f;
     ConstructPayload := ConstructPayload d;
     Functions_Call_Do := Functions_Call_Do d |}.

(** A helper that is not deterministic: the environment is a clock,
    each call makes it tick, and a binding that reads the time resolves
    at even ticks only. *)
Definition clocked_helper
    : bytes -> list v1alpha1.TriggerParameter -> Events -> nat -> (bytes + error) * nat :=
  fun b _ _ tick =>
    (if Nat.even tick then inl b else inr (errors_New "time: odd tick"), S tick).

End parameter_stage.

(** ** Properties of the trigger *)

Module gcp_cloud_function_facts.
Import gcp_cloud_function.

Ltac run :=
  unfold NewGCPCloudFunctionTrigger, ApplyResourceParameters, Execute,
    ApplyPolicy, FetchResource, ask, log, bind, deref, map_lookup, map_store,
    ret, fail, panic, after_calls; simpl.

Lemma after_no_calls s : after_calls s [] = s.
Proof. destruct s. unfold after_calls. simpl. by rewrite app_nil_r. Qed.

(** On a miss with credentials and client in order, the new client is
    stored under the template's name and the trigger returned has a nil
    [Service]. *)
Lemma NewGCPCloudFunctionTrigger_miss d sensor tr tpl g logger m log path client :
  v1alpha1.Template tr = Some tpl ->
  v1alpha1.GCPCloudFunction tpl = Some g ->
  m !! v1alpha1.Name tpl = None ->
  GetSecretFromVolume d (v1alpha1.CredentialsPath g) = inl path ->
  (forall e, os_Stat d path = Some e -> errors_Is e ErrNotExist = false) ->
  cloudfunctions_NewService d [cloudfunctions.WithCredentialsFile path] = inl client ->
  NewGCPCloudFunctionTrigger d sensor (Some tr) logger
    {| gcpClients := Some m; calls := log |}
  = (Ret {| Sensor := sensor; Trigger := Some tr; Service := None;
            Logger := zap.With logger (LabelTriggerType d) (GCPFunctionTrigger d) |},
     {| gcpClients := Some (<[v1alpha1.Name tpl := Some client]> m);
        calls := log ++ [call_GetSecretFromVolume (v1alpha1.CredentialsPath g);
                         call_Stat path;
                         call_NewService [cloudfunctions.WithCredentialsFile path]] |}).
Proof.
  intros Htpl Hg Hmiss Hsecret Hstat Hnew. run.
  rewrite Htpl; simpl. rewrite Hmiss; simpl. rewrite Hg; simpl.
  rewrite Hsecret; simpl.
  destruct (os_Stat d path) as [e|] eqn:He; simpl.
  - rewrite (Hstat e eq_refl); simpl. rewrite Hnew; simpl.
    by rewrite <- !app_assoc.
  - rewrite Hnew; simpl. by rewrite <- !app_assoc.
Qed.

(** C1, on the code: with an empty cache, the secret volume in order
    and a client that can be built, the constructor stores the new client
    under the template's name, and the trigger it returns has a nil
    [Service], which is not the stored client. *)
Theorem NewGCPCloudFunctionTrigger_first_use_Service_nil :
  exists t s',
    NewGCPCloudFunctionTrigger (scenario.deps scenario.volume_ready)
      (Some scenario.sensor) (Some (scenario.trigger_of scenario.billFn))
      scenario.logger scenario.empty_cache = (Ret t, s') /\
    gcpClients s' = Some {[ "bill" := Some scenario.client ]} /\
    Service t = None /\
    Service t <> Some scenario.client.
Proof.
  eexists _, _. split.
  - apply (NewGCPCloudFunctionTrigger_miss (scenario.deps scenario.volume_ready)
             _ _ (scenario.template_of scenario.billFn) scenario.billFn _ ∅ []
             "/argo-events/secrets/gcp-credentials/key.json" scenario.client);
      try reflexivity.
    intros e He. discriminate He.
  - simpl. split; [ by rewrite insert_empty | split; [ done | discriminate ] ].
Qed.

(** What the nil [Service] leads to: the first execution with the
    trigger the constructor returned on a miss stops at [t.Service]. *)
Lemma Execute_after_first_use_panics d t ctx events trigger params payload s :
  Service t = None ->
  v1alpha1.Payload trigger = Some params ->
  ConstructPayload d events params = inl payload ->
  fst (Execute d t ctx events (iface_GCPCloudFunctionTrigger (Some trigger)) s)
  = Panic nil_dereference.
Proof.
  intros Hsvc Hp Hc. run. rewrite Hp; simpl. rewrite Hc; simpl.
  by rewrite Hsvc.
Qed.

(** C5: when the cache holds a client under the template's name, the
    constructor returns a trigger whose [Service] is that client; the
    state after the call is the state before it, so the cache is as it
    was and no call (to the secret volume, the file system or the client
    library) was made. *)
Theorem NewGCPCloudFunctionTrigger_hit d sensor tr tpl logger s cached :
  v1alpha1.Template tr = Some tpl ->
  cache_hit s (v1alpha1.Name tpl) cached ->
  NewGCPCloudFunctionTrigger d sensor (Some tr) logger s
  = (Ret {| Sensor := sensor; Trigger := Some tr; Service := cached;
            Logger := zap.With logger (LabelTriggerType d) (GCPFunctionTrigger d) |},
     s).
Proof.
  intros Htpl (m & Hm & Hhit). run.
  rewrite Htpl; simpl. rewrite Hm, Hhit; simpl. reflexivity.
Qed.

Lemma NewGCPCloudFunctionTrigger_hit_witness :
  v1alpha1.Template (scenario.trigger_of scenario.billFn)
    = Some (scenario.template_of scenario.billFn) /\
  cache_hit scenario.warm_cache "bill" (Some scenario.cached_client) /\
  NewGCPCloudFunctionTrigger (scenario.deps scenario.volume_ready)
    (Some scenario.sensor) (Some (scenario.trigger_of scenario.billFn))
    scenario.logger scenario.warm_cache
  = (Ret (scenario.warm_trigger scenario.billFn), scenario.warm_cache).
Proof.
  assert (Hhit : cache_hit scenario.warm_cache "bill" (Some scenario.cached_client)).
  { eexists. split; [ reflexivity | ]. vm_compute. reflexivity. }
  split; [ reflexivity | split; [ exact Hhit | ] ].
  exact (NewGCPCloudFunctionTrigger_hit (scenario.deps scenario.volume_ready)
           (Some scenario.sensor) (scenario.trigger_of scenario.billFn)
           (scenario.template_of scenario.billFn) scenario.logger
           scenario.warm_cache (Some scenario.cached_client) eq_refl Hhit).
Defined.

(** C6: on a miss, when the secret path does not resolve or the
    credentials file does not exist, the constructor returns the cause
    wrapped in a message that says which of the two it was; the cache is
    as it was, and the calls made are those to the secret volume and the
    file system, none of them a client construction. *)
Theorem NewGCPCloudFunctionTrigger_credentials_missing
    d sensor tr tpl g logger s cause msg made :
  v1alpha1.Template tr = Some tpl ->
  v1alpha1.GCPCloudFunction tpl = Some g ->
  cache_miss s (v1alpha1.Name tpl) ->
  credentials_missing d g cause msg made ->
  NewGCPCloudFunctionTrigger d sensor (Some tr) logger s
    = (Fail (errors_Wrap cause msg), after_calls s made) /\
  Error (errors_Wrap cause msg) = msg ++ ": " ++ Error cause /\
  gcpClients (after_calls s made) = gcpClients s /\
  forallb (fun c => negb (is_client_construction c)) made = true.
Proof.
  intros Htpl Hg Hmiss Hmissing.
  assert (Hlookup : map_lookup (v1alpha1.Name tpl) s = (Ret (None, false), s)).
  { unfold map_lookup, cache_miss in *. destruct (gcpClients s); [ | done ].
    by rewrite Hmiss. }
  destruct Hmissing as [cause Hsecret | path cause Hsecret Hstat Hnot].
  - repeat split; try reflexivity.
    unfold NewGCPCloudFunctionTrigger, bind at 1 2 3; simpl.
    rewrite Htpl; simpl. unfold bind at 1. rewrite Hlookup; simpl.
    rewrite Hg. run. by rewrite Hsecret.
  - repeat split; try reflexivity.
    unfold NewGCPCloudFunctionTrigger, bind at 1 2 3; simpl.
    rewrite Htpl; simpl. unfold bind at 1. rewrite Hlookup; simpl.
    rewrite Hg. run. rewrite Hsecret; simpl. rewrite Hstat; simpl.
    rewrite Hnot; simpl. by rewrite <- app_assoc.
Qed.

Lemma NewGCPCloudFunctionTrigger_credentials_missing_witness :
  v1alpha1.Template (scenario.trigger_of scenario.billFn)
    = Some (scenario.template_of scenario.billFn) /\
  cache_miss scenario.empty_cache "bill" /\
  credentials_missing (scenario.deps scenario.volume_without_file) scenario.billFn
    (PathError "stat" "/argo-events/secrets/gcp-credentials/key.json" ErrNotExist)
    "can not find service account file from CredentialsPath"
    [call_GetSecretFromVolume (Some scenario.credentials);
     call_Stat "/argo-events/secrets/gcp-credentials/key.json"] /\
  fst (NewGCPCloudFunctionTrigger (scenario.deps scenario.volume_without_file)
         (Some scenario.sensor) (Some (scenario.trigger_of scenario.billFn))
         scenario.logger scenario.empty_cache)
  = Fail (errors_Wrap
            (PathError "stat" "/argo-events/secrets/gcp-credentials/key.json"
               ErrNotExist)
            "can not find service account file from CredentialsPath").
Proof.
  assert (Hmiss : cache_miss scenario.empty_cache "bill") by reflexivity.
  assert (Habsent : credentials_missing
            (scenario.deps scenario.volume_without_file) scenario.billFn
            (PathError "stat" "/argo-events/secrets/gcp-credentials/key.json"
               ErrNotExist)
            "can not find service account file from CredentialsPath"
            [call_GetSecretFromVolume (Some scenario.credentials);
             call_Stat "/argo-events/secrets/gcp-credentials/key.json"]).
  { apply (credentials_file_absent
             (scenario.deps scenario.volume_without_file) scenario.billFn
             "/argo-events/secrets/gcp-credentials/key.json"); reflexivity. }
  split; [ reflexivity | split; [ exact Hmiss | split; [ exact Habsent | ] ] ].
  rewrite (proj1 (NewGCPCloudFunctionTrigger_credentials_missing
                    (scenario.deps scenario.volume_without_file)
                    (Some scenario.sensor) (scenario.trigger_of scenario.billFn)
                    (scenario.template_of scenario.billFn) scenario.billFn
                    scenario.logger scenario.empty_cache _ _ _
                    eq_refl eq_refl Hmiss Habsent)).
  reflexivity.
Defined.

(** The other way of missing credentials, run: the secret path does
    not resolve. *)
Example NewGCPCloudFunctionTrigger_secret_path_unresolved :
  NewGCPCloudFunctionTrigger (scenario.deps scenario.volume_without_key)
    (Some scenario.sensor) (Some (scenario.trigger_of scenario.billFn))
    scenario.logger scenario.empty_cache
  = (Fail (errors_Wrap (PathError "open" "/argo-events/secrets/" ErrNotExist)
             "can not find service account path key"),
     after_calls scenario.empty_cache
       [call_GetSecretFromVolume (Some scenario.credentials)]).
Proof. reflexivity. Qed.

(** An error of [os.Stat] that is not "does not exist" lets the
    constructor go on to build the client. *)
Lemma NewGCPCloudFunctionTrigger_other_stat_error d sensor tr tpl g logger m log
    path e client :
  v1alpha1.Template tr = Some tpl ->
  v1alpha1.GCPCloudFunction tpl = Some g ->
  m !! v1alpha1.Name tpl = None ->
  GetSecretFromVolume d (v1alpha1.CredentialsPath g) = inl path ->
  os_Stat d path = Some e ->
  errors_Is e ErrNotExist = false ->
  cloudfunctions_NewService d [cloudfunctions.WithCredentialsFile path] = inl client ->
  gcpClients (snd (NewGCPCloudFunctionTrigger d sensor (Some tr) logger
                     {| gcpClients := Some m; calls := log |}))
  = Some (<[v1alpha1.Name tpl := Some client]> m).
Proof.
  intros Htpl Hg Hmiss Hsecret Hstat Hnot Hnew.
  erewrite NewGCPCloudFunctionTrigger_miss; eauto.
  intros e' He'. congruence.
Qed.

Example NewGCPCloudFunctionTrigger_unreadable_file :
  exists t,
    NewGCPCloudFunctionTrigger (scenario.deps scenario.volume_unreadable)
      (Some scenario.sensor) (Some (scenario.trigger_of scenario.billFn))
      scenario.logger scenario.empty_cache
    = (Ret t,
       {| gcpClients := Some (<["bill" := Some scenario.client]> ∅);
          calls := [call_GetSecretFromVolume (Some scenario.credentials);
                    call_Stat "/argo-events/secrets/gcp-credentials/key.json";
                    call_NewService
                      [cloudfunctions.WithCredentialsFile
                         "/argo-events/secrets/gcp-credentials/key.json"]] |}).
Proof.
  eexists.
  apply (NewGCPCloudFunctionTrigger_miss (scenario.deps scenario.volume_unreadable)
           _ _ (scenario.template_of scenario.billFn) scenario.billFn _ ∅ []
           "/argo-events/secrets/gcp-credentials/key.json" scenario.client);
    try reflexivity.
  intros e [= <-]. reflexivity.
Qed.

(** C3: a resource of type [*v1alpha1.GCPCloudFunctionTrigger] with a
    nil [Payload] makes [Execute] return the error "payload parameters
    are not specified"; the state after the call is the state before it,
    so neither the payload constructor nor the function service was
    called. *)
Theorem Execute_payload_not_specified d t ctx events trigger s :
  v1alpha1.Payload trigger = None ->
  Execute d t ctx events (iface_GCPCloudFunctionTrigger (Some trigger)) s
  = (Fail (errors_New "payload parameters are not specified"), s).
Proof. intros Hnil. run. by rewrite Hnil. Qed.

Lemma Execute_payload_not_specified_witness :
  v1alpha1.Payload scenario.billFn_no_payload = None /\
  Execute (scenario.deps scenario.volume_ready)
    (scenario.warm_trigger scenario.billFn_no_payload) context.Background
    scenario.events
    (iface_GCPCloudFunctionTrigger (Some scenario.billFn_no_payload))
    scenario.warm_cache
  = (Fail (errors_New "payload parameters are not specified"),
     scenario.warm_cache).
Proof.
  split; [ reflexivity | ].
  exact (Execute_payload_not_specified (scenario.deps scenario.volume_ready)
           (scenario.warm_trigger scenario.billFn_no_payload) context.Background
           scenario.events scenario.billFn_no_payload scenario.warm_cache eq_refl).
Defined.

(** C8: a resource whose dynamic type is not
    [*v1alpha1.GCPCloudFunctionTrigger] (the nil interface among them)
    makes [Execute] return the error "failed to interpret the trigger
    resource"; the state after the call is the state before it, so
    neither the payload constructor nor the function service was
    called. *)
Theorem Execute_invalid_resource_type d t ctx events resource s :
  is_GCPCloudFunctionTrigger resource = false ->
  Execute d t ctx events resource s
  = (Fail (errors_New "failed to interpret the trigger resource"), s).
Proof. intros Hty. destruct resource; try discriminate Hty; reflexivity. Qed.

Lemma Execute_invalid_resource_type_witness :
  is_GCPCloudFunctionTrigger (iface_CallFunctionResponse (Some scenario.OK)) = false /\
  Execute (scenario.deps scenario.volume_ready)
    (scenario.warm_trigger scenario.billFn) context.Background scenario.events
    (iface_CallFunctionResponse (Some scenario.OK)) scenario.warm_cache
  = (Fail (errors_New "failed to interpret the trigger resource"),
     scenario.warm_cache).
Proof.
  split; [ reflexivity | ].
  exact (Execute_invalid_resource_type (scenario.deps scenario.volume_ready)
           (scenario.warm_trigger scenario.billFn) context.Background
           scenario.events (iface_CallFunctionResponse (Some scenario.OK))
           scenario.warm_cache eq_refl).
Defined.

(** A nil pointer of the right type passes the type assertion and
    stops [Execute] at [trigger.Payload]. *)
Example Execute_nil_pointer_resource d t ctx events s :
  Execute d t ctx events (iface_GCPCloudFunctionTrigger None) s
  = (Panic nil_dereference, s).
Proof. reflexivity. Qed.

(** C4, as the code has it: when the trigger's template declares no
    parameter bindings and [json.Marshal] accepts the resource,
    [ApplyResourceParameters] returns the resource it was given, with no
    error, and leaves the state as it was. *)
Theorem ApplyResourceParameters_no_bindings d t g events resource resourceBytes s :
  trigger_for t g ->
  v1alpha1.Parameters g = None ->
  json_Marshal d resource = inl resourceBytes ->
  ApplyResourceParameters d t events resource s = (Ret resource, s).
Proof.
  intros (tr & tpl & Htr & Htpl & Hg) Hnil Hmarshal. run.
  rewrite Hmarshal, Htr; simpl. rewrite Htpl; simpl. rewrite Hg; simpl.
  by rewrite Hnil.
Qed.

Lemma ApplyResourceParameters_no_bindings_witness :
  trigger_for (scenario.warm_trigger scenario.billFn) scenario.billFn /\
  v1alpha1.Parameters scenario.billFn = None /\
  json_Marshal (scenario.deps scenario.volume_ready)
    (iface_GCPCloudFunctionTrigger (Some scenario.billFn))
    = inl (list_byte_of_string "functionName=billFn") /\
  ApplyResourceParameters (scenario.deps scenario.volume_ready)
    (scenario.warm_trigger scenario.billFn) scenario.events
    (iface_GCPCloudFunctionTrigger (Some scenario.billFn)) scenario.warm_cache
  = (Ret (iface_GCPCloudFunctionTrigger (Some scenario.billFn)),
     scenario.warm_cache).
Proof.
  assert (Hfor : trigger_for (scenario.warm_trigger scenario.billFn) scenario.billFn).
  { eexists _, _. repeat split; reflexivity. }
  split; [ exact Hfor | split; [ reflexivity | split; [ reflexivity | ] ] ].
  exact (ApplyResourceParameters_no_bindings (scenario.deps scenario.volume_ready)
           (scenario.warm_trigger scenario.billFn) scenario.billFn scenario.events
           (iface_GCPCloudFunctionTrigger (Some scenario.billFn))
           (list_byte_of_string "functionName=billFn") scenario.warm_cache
           Hfor eq_refl eq_refl).
Defined.

(** C4, as stated, fails: the template declares no bindings, the
    resource is a channel, and [ApplyResourceParameters] returns the
    wrapped error of [json.Marshal] instead of the resource. *)
Lemma ApplyResourceParameters_no_bindings_unencodable :
  trigger_for (scenario.warm_trigger scenario.billFn) scenario.billFn /\
  v1alpha1.Parameters scenario.billFn = None /\
  ApplyResourceParameters (scenario.deps scenario.volume_ready)
    (scenario.warm_trigger scenario.billFn) scenario.events
    (iface_chan "int") scenario.warm_cache
  = (Fail (errors_Wrap (UnsupportedTypeError "chan int")
             "failed to marshal the GCP cloud function trigger resource"),
     scenario.warm_cache) /\
  fst (ApplyResourceParameters (scenario.deps scenario.volume_ready)
         (scenario.warm_trigger scenario.billFn) scenario.events
         (iface_chan "int") scenario.warm_cache)
  <> Ret (iface_chan "int").
Proof.
  split; [ eexists _, _; repeat split; reflexivity | ].
  split; [ reflexivity | split; [ reflexivity | discriminate ] ].
Qed.

(** Whatever the bindings, a resource that [json.Marshal] refuses is
    answered with the wrapped marshalling error. *)
Lemma ApplyResourceParameters_marshal_error d t events resource err s :
  json_Marshal d resource = inr err ->
  ApplyResourceParameters d t events resource s
  = (Fail (errors_Wrap err
             "failed to marshal the GCP cloud function trigger resource"), s).
Proof. intros Hmarshal. unfold ApplyResourceParameters. by rewrite Hmarshal. Qed.

(** With bindings declared, the resolved resource is what the updated
    bytes unmarshal to. *)
Example ApplyResourceParameters_bound :
  ApplyResourceParameters (scenario.deps scenario.volume_ready)
    (scenario.warm_trigger scenario.billFn_bound) scenario.events
    (iface_GCPCloudFunctionTrigger (Some scenario.billFn_bound))
    scenario.warm_cache
  = (Ret (iface_GCPCloudFunctionTrigger (Some scenario.billFn_bound)),
     after_calls scenario.warm_cache
       [call_ApplyParams (list_byte_of_string "functionName=billFn")
          [scenario.amount]]).
Proof. reflexivity. Qed.

(** C7: [ApplyPolicy] returns the nil error for every context and
    every response it is given, and leaves the state as it was: the
    outcome is always the success, never an error and never anything
    that asks for a retry. *)
Theorem ApplyPolicy_always_nil t ctx response s :
  ApplyPolicy t ctx response s = (Ret None, s) /\
  forall e, fst (ApplyPolicy t ctx response s) <> Ret (Some e) /\
            fst (ApplyPolicy t ctx response s) <> Fail e.
Proof. split; [ reflexivity | intros e; split; discriminate ]. Qed.

(** The outcome of [Execute] and the calls it makes are fixed by the
    trigger, the events and the resource: neither the context nor the
    state has a part in them, and no call carries a context. *)
Lemma Execute_run d t events resource :
  exists r made,
    forallb (fun c => negb (attaches_context c)) made = true /\
    forall ctx s, Execute d t ctx events resource s = (r, after_calls s made).
Proof.
  destruct resource as [ | b | elem | [trigger | ] | p ];
    try (eexists _, []; split; [ reflexivity | ];
         intros ctx s; rewrite after_no_calls; reflexivity).
  destruct (v1alpha1.Payload trigger) as [params | ] eqn:Hp;
    [ | eexists _, []; split; [ reflexivity | ];
        intros ctx s; rewrite after_no_calls; run; rewrite Hp; reflexivity ].
  destruct (ConstructPayload d events params) as [payload | err] eqn:Hc;
    [ | eexists _, [call_ConstructPayload params]; split; [ reflexivity | ];
        intros ctx s; run; rewrite Hp; simpl; rewrite Hc; reflexivity ].
  destruct (Service t) as [svc | ] eqn:Hsvc;
    [ | eexists _, [call_ConstructPayload params]; split; [ reflexivity | ];
        intros ctx s; run; rewrite Hp; simpl; rewrite Hc; simpl;
        rewrite Hsvc; reflexivity ].
  destruct (Functions_Call_Do d None svc (v1alpha1.FunctionName trigger)
              {| cloudfunctions.Data := string_of_list_byte payload |})
    as [response | err] eqn:Hcall;
    eexists _, [call_ConstructPayload params;
                call_FunctionsCall None svc (v1alpha1.FunctionName trigger)
                  {| cloudfunctions.Data := string_of_list_byte payload |}];
    (split; [ reflexivity | ]);
    intros ctx s; run; rewrite Hp; simpl; rewrite Hc; simpl;
    rewrite Hsvc; simpl; rewrite Hcall; simpl;
    rewrite <- app_assoc; reflexivity.
Qed.

(** C2, as the code has it: [Execute] does not consult its context. For
    every two contexts, live, cancelled or expired, it returns the same
    outcome and leaves the same state, and none of the calls it makes
    hands a context to the function service. *)
Theorem Execute_ignores_context d t ctx ctx' events resource s :
  Execute d t ctx events resource s = Execute d t ctx' events resource s /\
  exists made,
    snd (Execute d t ctx events resource s) = after_calls s made /\
    forallb (fun c => negb (attaches_context c)) made = true.
Proof.
  destruct (Execute_run d t events resource) as (r & made & Hnone & Hrun).
  rewrite !Hrun. split; [ reflexivity | ]. exists made. by split.
Qed.

(** C2, as stated, fails: the context is cancelled (or its deadline
    has passed) while the call is in flight, the transport would answer
    a call that carries such a context with the context's error, and
    [Execute] returns the response of the function with no error. *)
Lemma Execute_cancelled_context_succeeds :
  context.Err scenario.cancelled = Some context_Canceled /\
  context.Err scenario.expired = Some context_DeadlineExceeded /\
  Functions_Call_Do (scenario.deps scenario.volume_ready)
    (Some scenario.cancelled) scenario.cached_client "billFn"
    {| cloudfunctions.Data := "amount=42" |} = inr context_Canceled /\
  fst (Execute (scenario.deps scenario.volume_ready)
         (scenario.warm_trigger scenario.billFn) scenario.cancelled
         scenario.events (iface_GCPCloudFunctionTrigger (Some scenario.billFn))
         scenario.warm_cache)
  = Ret (iface_CallFunctionResponse (Some scenario.OK)) /\
  fst (Execute (scenario.deps scenario.volume_ready)
         (scenario.warm_trigger scenario.billFn) scenario.expired
         scenario.events (iface_GCPCloudFunctionTrigger (Some scenario.billFn))
         scenario.warm_cache)
  = Ret (iface_CallFunctionResponse (Some scenario.OK)).
Proof. repeat split; reflexivity. Qed.

End gcp_cloud_function_facts.

(** ** Properties of the version lookup *)

Module controllers_facts.
Import controllers.

Lemma append_versions_map vs result :
  append_versions vs result = (result ++ map Version vs)%list.
Proof.
  revert result. induction vs as [ | v vs IH]; intros result; simpl.
  - by rewrite app_nil_r.
  - unfold append_versions in *. simpl. rewrite IH. by rewrite <- app_assoc.
Qed.

(** The supported versions are the version strings of the entries, in
    the order of the configuration. *)
Lemma supportedNatsStreamingVersions_map g eb nats :
  EventBus g = Some eb -> NATS eb = Some nats ->
  supportedNatsStreamingVersions g = map Version (Versions nats).
Proof.
  intros Heb Hnats. unfold supportedNatsStreamingVersions.
  rewrite Heb, Hnats. by rewrite append_versions_map.
Qed.

(** The loop ends early exactly at the first entry of the wanted
    version. *)
Lemma first_version_Some version vs r :
  first_version version vs = Some r <->
  exists before after,
    vs = (before ++ r :: after)%list /\ Version r = version /\
    Forall (fun x => Version x <> version) before.
Proof.
  induction vs as [ | x vs IH]; simpl.
  - split; [ discriminate | ].
    intros (before & after & Hvs & _). by destruct before.
  - destruct (decide (Version x = version)) as [Heq | Hne].
    + split.
      * intros [= ->]. exists [], vs. by repeat split.
      * intros (before & after & Hvs & Hr & Hbefore).
        destruct before as [ | y before]; simpl in Hvs.
        -- by inversion Hvs.
        -- inversion Hvs; subst y. inversion Hbefore; subst. contradiction.
    + rewrite IH. split.
      * intros (before & after & -> & Hr & Hbefore).
        exists (x :: before), after. repeat split; [ done | by constructor ].
      * intros (before & after & Hvs & Hr & Hbefore).
        destruct before as [ | y before]; simpl in Hvs.
        -- inversion Hvs; subst x. contradiction.
        -- inversion Hvs; subst y vs. inversion Hbefore; subst.
           by exists before, after.
Qed.

Lemma first_version_None version vs :
  first_version version vs = None <->
  Forall (fun x => Version x <> version) vs.
Proof.
  induction vs as [ | x vs IH]; simpl.
  - split; [ constructor | done ].
  - destruct (decide (Version x = version)) as [Heq | Hne].
    + split; [ discriminate | ]. intros Hall. inversion Hall; subst. contradiction.
    + rewrite IH. split; [ by constructor | ]. intros Hall. by inversion Hall.
Qed.

Lemma first_version_is_Some version vs :
  is_Some (first_version version vs) <->
  exists r, r ∈ vs /\ Version r = version.
Proof.
  split.
  - intros [r Hr]. apply first_version_Some in Hr as (before & after & -> & Hv & _).
    exists r. split; [ | done ]. apply elem_of_app. right. by left.
  - intros (r & Hin & Hv).
    destruct (first_version version vs) as [r' | ] eqn:Hfirst; [ by eexists | ].
    apply first_version_None in Hfirst.
    rewrite Forall_forall in Hfirst. by destruct (Hfirst r Hin).
Qed.

(** The lookup never panics: it returns an entry or an error. *)
Lemma GetNatsStreamingVersion_no_panic q g version why :
  GetNatsStreamingVersion q g version <> Panic why.
Proof.
  unfold GetNatsStreamingVersion.
  destruct (EventBus g) as [eb | ]; [ | discriminate ].
  destruct (NATS eb) as [nats | ]; [ | discriminate ].
  destruct (length (Versions nats) =? 0)%nat; [ discriminate | ].
  destruct (first_version version (Versions nats)); discriminate.
Qed.

(** C10: [GetNatsStreamingVersion] returns an entry, and no error,
    exactly when the configuration has an [EventBus] with a [NATS]
    section whose [Versions] hold an entry of the wanted version; the
    entry returned is then the first such entry of the list; and when it
    fails although the section is there and its list is not empty, the
    text of the error is "unsupported version", the quoted wanted
    version, "supported versions:" and the quoted, comma-joined version
    strings of all entries in the order of the list, which are also what
    [supportedNatsStreamingVersions] returns. *)
Theorem GetNatsStreamingVersion_spec q g version :
  ((exists r, GetNatsStreamingVersion q g version = Ret r) <->
   (exists eb nats r,
      EventBus g = Some eb /\ NATS eb = Some nats /\
      r ∈ Versions nats /\ Version r = version)) /\
  (forall r, GetNatsStreamingVersion q g version = Ret r ->
     exists eb nats before after,
       EventBus g = Some eb /\ NATS eb = Some nats /\
       Versions nats = (before ++ r :: after)%list /\ Version r = version /\
       Forall (fun x => Version x <> version) before) /\
  (forall e eb nats,
     GetNatsStreamingVersion q g version = Fail e ->
     EventBus g = Some eb -> NATS eb = Some nats -> Versions nats <> [] ->
     supportedNatsStreamingVersions g = map Version (Versions nats) /\
     Error e = "unsupported version " ++ q version ++ ", supported versions: " ++
               q (strings_Join (map Version (Versions nats)) ",")).
Proof.
  unfold GetNatsStreamingVersion.
  destruct (EventBus g) as [eb | ] eqn:Heb.
  2: { split; [ split | split ].
       - intros [r Hr]. discriminate Hr.
       - intros (eb & nats & r & Hf & _). discriminate Hf.
       - intros r Hr. discriminate Hr.
       - intros e eb nats _ Hf. discriminate Hf. }
  destruct (NATS eb) as [nats | ] eqn:Hnats.
  2: { split; [ split | split ].
       - intros [r Hr]. discriminate Hr.
       - intros (eb' & nats & r & [= <-] & Hf & _). congruence.
       - intros r Hr. discriminate Hr.
       - intros e eb' nats _ [= <-] Hf. congruence. }
  assert (Hsup : supportedNatsStreamingVersions g = map Version (Versions nats))
    by (by apply (supportedNatsStreamingVersions_map g eb nats)).
  destruct (Versions nats) as [ | v vs] eqn:Hvs; simpl.
  { split; [ split | split ].
    - intros [r Hr]. discriminate Hr.
    - intros (eb' & nats' & r & [= <-] & Hn & Hin & _).
      assert (nats' = nats) as -> by congruence.
      rewrite Hvs in Hin. by apply elem_of_nil in Hin.
    - intros r Hr. discriminate Hr.
    - intros e eb' nats' _ [= <-] Hn Hne.
      assert (nats' = nats) as -> by congruence. by rewrite Hvs in Hne. }
  change (if decide (Version v = version) then Some v else first_version version vs)
    with (first_version version (v :: vs)).
  destruct (first_version version (v :: vs)) as [r | ] eqn:Hfirst.
  - split; [ split | split ].
    + intros _. exists eb, nats, r. rewrite Hvs.
      apply first_version_Some in Hfirst as (before & after & Hl & Hv & _).
      split; [ done | ]. split; [ done | ]. split; [ | done ].
      rewrite Hl. apply elem_of_app. right. by left.
    + intros _. by exists r.
    + intros r' [= <-]. exists eb, nats.
      apply first_version_Some in Hfirst as (before & after & Hl & Hv & Hb).
      exists before, after. by rewrite Hvs.
    + intros e eb' nats' Hf. discriminate Hf.
  - split; [ split | split ].
    + intros [r Hr]. discriminate Hr.
    + intros (eb' & nats' & r & [= <-] & Hn & Hin & Hv).
      assert (nats' = nats) as -> by congruence. rewrite Hvs in Hin.
      apply first_version_None in Hfirst. rewrite Forall_forall in Hfirst.
      by destruct (Hfirst r Hin).
    + intros r Hr. discriminate Hr.
    + intros e eb' nats' [= <-] [= <-] Hn _.
      assert (nats' = nats) as -> by congruence.
      rewrite Hvs. split; [ by rewrite Hsup | ]. simpl.
      unfold strings_Join. by rewrite Hsup.
Qed.

(** A lookup that succeeds: of the two entries for 0.22.1 the first
    one is returned. *)
Example GetNatsStreamingVersion_first_entry :
  GetNatsStreamingVersion quote_plain (config_of [v0_22; v0_25; v0_22_mirror]) "0.22.1"
  = Ret v0_22.
Proof. reflexivity. Qed.

(** A lookup that fails: the text names the three configured version
    strings in their order. *)
Example GetNatsStreamingVersion_unsupported :
  exists e,
    GetNatsStreamingVersion quote_plain
      (config_of [v0_22; v0_25; v0_22_mirror]) "0.3" = Fail e /\
    Error e = "unsupported version " ++ dquote ++ "0.3" ++ dquote ++
              ", supported versions: " ++
              dquote ++ "0.22.1,0.25.2,0.22.1" ++ dquote.
Proof. eexists. split; reflexivity. Qed.

(** The two failures that come before the search. *)
Example GetNatsStreamingVersion_no_section :
  GetNatsStreamingVersion quote_plain {| EventBus := None |} "0.22.1"
  = Fail (errors_New (dquote ++ "eventBus.nats" ++ dquote ++
                      " not found in the configuration")).
Proof. reflexivity. Qed.

Example GetNatsStreamingVersion_no_versions :
  GetNatsStreamingVersion quote_plain (config_of []) "0.22.1"
  = Fail (errors_New "nats streaming version configuration not found").
Proof. reflexivity. Qed.

End controllers_facts.

(** ** More on the constructor *)

Module constructor_facts.
Import gcp_cloud_function gcp_cloud_function_facts.

(** One goal for every path through the function in the goal. *)
Ltac paths := run; repeat (case_match; simpl in *; simplify_eq; simpl).

(** X1: the constructor never evicts or overwrites: every entry the
    cache holds before the call it holds after it, whatever the outcome,
    and the only name that can gain an entry is the name of the
    trigger's template. *)
Theorem NewGCPCloudFunctionTrigger_keeps_entries d sensor trigger logger s m :
  gcpClients s = Some m ->
  exists m',
    gcpClients (snd (NewGCPCloudFunctionTrigger d sensor trigger logger s)) = Some m' /\
    (forall k v, m !! k = Some v -> m' !! k = Some v) /\
    (forall k, m !! k = None -> m' !! k <> None ->
       exists tr tpl, trigger = Some tr /\ v1alpha1.Template tr = Some tpl /\
                      v1alpha1.Name tpl = k).
Proof.
  intros Hm. paths;
    try (exists m; split; [ done | split; [ done | congruence ] ]).
  all: eexists; split; [ reflexivity | split ].
  all: try (intros k v Hk; rewrite lookup_insert_ne; [ done | congruence ]).
  all: intros k Hnone Hsome; destruct (decide (v1alpha1.Name t0 = k));
    [ by eexists _, _ | by rewrite lookup_insert_ne in Hsome ].
Qed.

Lemma NewGCPCloudFunctionTrigger_keeps_entries_witness :
  gcpClients faulty.other_cache = Some {[ "mail" := Some scenario.cached_client ]} /\
  exists m',
    gcpClients (snd (NewGCPCloudFunctionTrigger (scenario.deps scenario.volume_ready)
                       (Some scenario.sensor)
                       (Some (scenario.trigger_of scenario.billFn))
                       scenario.logger faulty.other_cache)) = Some m' /\
    m' !! "mail" = Some (Some scenario.cached_client).
Proof.
  split; [ reflexivity | ].
  destruct (NewGCPCloudFunctionTrigger_keeps_entries
              (scenario.deps scenario.volume_ready) (Some scenario.sensor)
              (Some (scenario.trigger_of scenario.billFn)) scenario.logger
              faulty.other_cache _ eq_refl) as (m' & Hm' & Hkeep & _).
  exists m'. split; [ exact Hm' | ]. apply Hkeep. reflexivity.
Defined.

(** X2: whenever the constructor returns an error, the error is a
    cause wrapped in one of its three messages, and the cache is as it
    was before the call. *)
Theorem NewGCPCloudFunctionTrigger_error_wrapped d sensor trigger logger s e s' :
  NewGCPCloudFunctionTrigger d sensor trigger logger s = (Fail e, s') ->
  gcpClients s' = gcpClients s /\
  exists cause msg, e = errors_Wrap cause msg /\ msg ∈ constructor_messages.
Proof.
  unfold constructor_messages. paths; intros; simplify_eq; simpl;
    (split; [ done | eexists _, _; split; [ reflexivity | set_solver ] ]).
Qed.

Lemma NewGCPCloudFunctionTrigger_error_wrapped_witness :
  gcpClients (snd (NewGCPCloudFunctionTrigger
                     (scenario.deps scenario.volume_without_key)
                     (Some scenario.sensor)
                     (Some (scenario.trigger_of scenario.billFn))
                     scenario.logger scenario.empty_cache))
  = gcpClients scenario.empty_cache.
Proof.
  exact (proj1 (NewGCPCloudFunctionTrigger_error_wrapped
                  (scenario.deps scenario.volume_without_key)
                  (Some scenario.sensor)
                  (Some (scenario.trigger_of scenario.billFn))
                  scenario.logger scenario.empty_cache _ _ eq_refl)).
Defined.

(** X3: on a miss with the credentials in place, a client library
    that refuses to build the client makes the constructor return that
    refusal wrapped in "failed to create a GCP service"; the cache gets
    no entry, and the three calls of a construction were made. *)
Theorem NewGCPCloudFunctionTrigger_client_refused
    d sensor tr tpl g logger s path cause :
  v1alpha1.Template tr = Some tpl ->
  v1alpha1.GCPCloudFunction tpl = Some g ->
  cache_miss s (v1alpha1.Name tpl) ->
  GetSecretFromVolume d (v1alpha1.CredentialsPath g) = inl path ->
  (forall e, os_Stat d path = Some e -> errors_Is e ErrNotExist = false) ->
  cloudfunctions_NewService d [cloudfunctions.WithCredentialsFile path] = inr cause ->
  NewGCPCloudFunctionTrigger d sensor (Some tr) logger s
  = (Fail (errors_Wrap cause "failed to create a GCP service"),
     after_calls s (construction_calls g path)).
Proof.
  intros Htpl Hg Hmiss Hsecret Hstat Hnew.
  assert (Hlookup : map_lookup (v1alpha1.Name tpl) s = (Ret (None, false), s)).
  { unfold map_lookup, cache_miss in *. destruct (gcpClients s); [ | done ].
    by rewrite Hmiss. }
  unfold NewGCPCloudFunctionTrigger, bind at 1 2 3; simpl.
  rewrite Htpl; simpl. unfold bind at 1. rewrite Hlookup; simpl.
  rewrite Hg. run. rewrite Hsecret; simpl.
  destruct (os_Stat d path) as [e | ] eqn:He; simpl.
  - rewrite (Hstat e eq_refl); simpl. rewrite Hnew; simpl.
    by rewrite <- !app_assoc.
  - rewrite Hnew; simpl. by rewrite <- !app_assoc.
Qed.

Lemma NewGCPCloudFunctionTrigger_client_refused_witness :
  cache_miss scenario.empty_cache "bill" /\
  NewGCPCloudFunctionTrigger
    (faulty.deps {| faulty.NewService_error := Some faulty.unauthorized;
                    faulty.ApplyParams_error := None;
                    faulty.Unmarshal_error := None;
                    faulty.ConstructPayload_error := None;
                    faulty.Call_error := None |})
    (Some scenario.sensor) (Some (scenario.trigger_of scenario.billFn))
    scenario.logger scenario.empty_cache
  = (Fail (errors_Wrap faulty.unauthorized "failed to create a GCP service"),
     after_calls scenario.empty_cache
       (construction_calls scenario.billFn faulty.credentials_file)).
Proof.
  assert (Hmiss : cache_miss scenario.empty_cache "bill") by reflexivity.
  split; [ exact Hmiss | ].
  apply (NewGCPCloudFunctionTrigger_client_refused _ _ _
           (scenario.template_of scenario.billFn) scenario.billFn _ _
           faulty.credentials_file faulty.unauthorized);
    try reflexivity; try exact Hmiss.
  intros e He. discriminate He.
Defined.

(** X4: the second construction for a template finds what the first
    one stored. After a first use that built the client [client], a
    construction for the same template, for any sensor and logger,
    returns a trigger whose [Service] is [client], makes no call and
    leaves the cache as the first one left it. *)
Theorem NewGCPCloudFunctionTrigger_second_use
    d sensor sensor' tr tpl g logger logger' m log path client :
  v1alpha1.Template tr = Some tpl ->
  v1alpha1.GCPCloudFunction tpl = Some g ->
  m !! v1alpha1.Name tpl = None ->
  GetSecretFromVolume d (v1alpha1.CredentialsPath g) = inl path ->
  (forall e, os_Stat d path = Some e -> errors_Is e ErrNotExist = false) ->
  cloudfunctions_NewService d [cloudfunctions.WithCredentialsFile path] = inl client ->
  let s1 := snd (NewGCPCloudFunctionTrigger d sensor (Some tr) logger
                   {| gcpClients := Some m; calls := log |}) in
  NewGCPCloudFunctionTrigger d sensor' (Some tr) logger' s1
  = (Ret {| Sensor := sensor'; Trigger := Some tr; Service := Some client;
            Logger := zap.With logger' (LabelTriggerType d) (GCPFunctionTrigger d) |},
     s1).
Proof.
  intros Htpl Hg Hmiss Hsecret Hstat Hnew s1. subst s1.
  erewrite NewGCPCloudFunctionTrigger_miss by eassumption. simpl.
  run. rewrite Htpl; simpl. by rewrite lookup_insert_eq.
Qed.

Lemma NewGCPCloudFunctionTrigger_second_use_witness :
  let s1 := snd (NewGCPCloudFunctionTrigger (scenario.deps scenario.volume_ready)
                   (Some scenario.sensor)
                   (Some (scenario.trigger_of scenario.billFn))
                   scenario.logger scenario.empty_cache) in
  NewGCPCloudFunctionTrigger (scenario.deps scenario.volume_ready)
    None (Some (scenario.trigger_of scenario.billFn)) scenario.logger s1
  = (Ret {| Sensor := None;
            Trigger := Some (scenario.trigger_of scenario.billFn);
            Service := Some scenario.client;
            Logger := zap.With scenario.logger "triggerType" "GCPCloudFunction" |},
     s1).
Proof.
  apply (NewGCPCloudFunctionTrigger_second_use
           (scenario.deps scenario.volume_ready) (Some scenario.sensor) None
           (scenario.trigger_of scenario.billFn)
           (scenario.template_of scenario.billFn) scenario.billFn
           scenario.logger scenario.logger ∅ []
           faulty.credentials_file scenario.client);
    try reflexivity.
  intros e He. discriminate He.
Defined.

(** X5: a nil map as cache. The lookup misses, the credentials are
    loaded and the client is built, and the store into the nil map
    panics: no trigger is returned and the client is lost. *)
Theorem NewGCPCloudFunctionTrigger_nil_map
    d sensor tr tpl g logger log path client :
  v1alpha1.Template tr = Some tpl ->
  v1alpha1.GCPCloudFunction tpl = Some g ->
  GetSecretFromVolume d (v1alpha1.CredentialsPath g) = inl path ->
  (forall e, os_Stat d path = Some e -> errors_Is e ErrNotExist = false) ->
  cloudfunctions_NewService d [cloudfunctions.WithCredentialsFile path] = inl client ->
  NewGCPCloudFunctionTrigger d sensor (Some tr) logger
    {| gcpClients := None; calls := log |}
  = (Panic nil_map_assignment,
     {| gcpClients := None; calls := log ++ construction_calls g path |}).
Proof.
  intros Htpl Hg Hsecret Hstat Hnew. run.
  rewrite Htpl; simpl. rewrite Hg; simpl. rewrite Hsecret; simpl.
  destruct (os_Stat d path) as [e | ] eqn:He; simpl.
  - rewrite (Hstat e eq_refl); simpl. rewrite Hnew; simpl.
    by rewrite <- !app_assoc.
  - rewrite Hnew; simpl. by rewrite <- !app_assoc.
Qed.

Lemma NewGCPCloudFunctionTrigger_nil_map_witness :
  NewGCPCloudFunctionTrigger (scenario.deps scenario.volume_ready)
    (Some scenario.sensor) (Some (scenario.trigger_of scenario.billFn))
    scenario.logger faulty.nil_cache
  = (Panic nil_map_assignment,
     {| gcpClients := None;
        calls := construction_calls scenario.billFn faulty.credentials_file |}).
Proof.
  apply (NewGCPCloudFunctionTrigger_nil_map (scenario.deps scenario.volume_ready)
           _ _ (scenario.template_of scenario.billFn) scenario.billFn _ []
           faulty.credentials_file scenario.client); try reflexivity.
  intros e He. discriminate He.
Defined.

(** X6: a client is only ever built on a miss, and only from the
    credentials file that the secret volume resolved for the template:
    every [NewService] call the constructor logs has that one option. *)
Theorem NewGCPCloudFunctionTrigger_builds_from_resolved_file
    d sensor trigger logger s opts :
  call_NewService opts ∈
    drop (length (calls s))
      (calls (snd (NewGCPCloudFunctionTrigger d sensor trigger logger s))) ->
  exists tr tpl g path,
    trigger = Some tr /\ v1alpha1.Template tr = Some tpl /\
    v1alpha1.GCPCloudFunction tpl = Some g /\
    cache_miss s (v1alpha1.Name tpl) /\
    GetSecretFromVolume d (v1alpha1.CredentialsPath g) = inl path /\
    opts = [cloudfunctions.WithCredentialsFile path].
Proof.
  unfold cache_miss.
  paths; rewrite <- ?app_assoc, ?drop_app_length, ?drop_all; simpl; intros Hin;
    repeat (apply elem_of_cons in Hin as [Hin | Hin]);
    try discriminate Hin; try (by apply elem_of_nil in Hin).
  all: injection Hin as ->; eexists _, _, _, _.
  all: repeat (split; [ done || eassumption | ]); try reflexivity.
  all: split; [ | split; [ eassumption | reflexivity ] ].
  all: by repeat (case_match; simplify_eq).
Qed.

Lemma NewGCPCloudFunctionTrigger_builds_from_resolved_file_witness :
  exists tr tpl g path,
    Some (scenario.trigger_of scenario.billFn) = Some tr /\
    v1alpha1.Template tr = Some tpl /\
    v1alpha1.GCPCloudFunction tpl = Some g /\
    cache_miss scenario.empty_cache (v1alpha1.Name tpl) /\
    GetSecretFromVolume (scenario.deps scenario.volume_ready)
      (v1alpha1.CredentialsPath g) = inl path /\
    [cloudfunctions.WithCredentialsFile faulty.credentials_file]
      = [cloudfunctions.WithCredentialsFile path].
Proof.
  apply (NewGCPCloudFunctionTrigger_builds_from_resolved_file
           (scenario.deps scenario.volume_ready) (Some scenario.sensor)
           (Some (scenario.trigger_of scenario.billFn)) scenario.logger
           scenario.empty_cache
           [cloudfunctions.WithCredentialsFile faulty.credentials_file]).
  simpl. do 2 apply list_elem_of_further. apply list_elem_of_here.
Defined.

End constructor_facts.

(** ** More on the stages *)

Module stage_facts.
Import gcp_cloud_function gcp_cloud_function_facts constructor_facts.

(** X7: the call that [Execute] makes. With a payload specification
    that resolves and a client at hand, [Execute] calls the function
    named in the resource it was given, with the payload bytes as the
    request's data and no context attached, after the one call to the
    payload constructor, and returns the response. *)
Theorem Execute_calls_function d t ctx events trigger params payload svc response s :
  v1alpha1.Payload trigger = Some params ->
  ConstructPayload d events params = inl payload ->
  Service t = Some svc ->
  Functions_Call_Do d None svc (v1alpha1.FunctionName trigger)
    {| cloudfunctions.Data := string_of_list_byte payload |} = inl response ->
  Execute d t ctx events (iface_GCPCloudFunctionTrigger (Some trigger)) s
  = (Ret (iface_CallFunctionResponse (Some response)),
     after_calls s (execution_calls trigger params svc payload)).
Proof.
  intros Hp Hc Hsvc Hcall. run. rewrite Hp; simpl. rewrite Hc; simpl.
  rewrite Hsvc; simpl. rewrite Hcall; simpl. by rewrite <- app_assoc.
Qed.

Lemma Execute_calls_function_witness :
  Execute (scenario.deps scenario.volume_ready)
    (scenario.warm_trigger scenario.billFn) context.Background scenario.events
    (iface_GCPCloudFunctionTrigger (Some scenario.billFn)) scenario.warm_cache
  = (Ret (iface_CallFunctionResponse (Some scenario.OK)),
     after_calls scenario.warm_cache
       (execution_calls scenario.billFn [scenario.amount] scenario.cached_client
          (list_byte_of_string "amount=42"))).
Proof.
  apply (Execute_calls_function (scenario.deps scenario.volume_ready)
           (scenario.warm_trigger scenario.billFn) context.Background
           scenario.events scenario.billFn [scenario.amount]
           (list_byte_of_string "amount=42") scenario.cached_client scenario.OK
           scenario.warm_cache); reflexivity.
Defined.

(** X8: a payload that cannot be built stops [Execute] before the
    function service is touched: the error of the payload constructor is
    returned as it is, the one call made is the payload construction, and
    the trigger's client is not even looked at (a nil [Service] does not
    panic here). *)
Theorem Execute_payload_error d t ctx events trigger params err s :
  v1alpha1.Payload trigger = Some params ->
  ConstructPayload d events params = inr err ->
  Execute d t ctx events (iface_GCPCloudFunctionTrigger (Some trigger)) s
  = (Fail err, after_calls s [call_ConstructPayload params]).
Proof. intros Hp Hc. run. rewrite Hp; simpl. by rewrite Hc. Qed.

Lemma Execute_payload_error_witness :
  Execute
    (faulty.deps {| faulty.NewService_error := None;
                    faulty.ApplyParams_error := None;
                    faulty.Unmarshal_error := None;
                    faulty.ConstructPayload_error := Some faulty.no_such_event;
                    faulty.Call_error := None |})
    (faulty.cold_trigger scenario.billFn) context.Background scenario.events
    (iface_GCPCloudFunctionTrigger (Some scenario.billFn)) scenario.warm_cache
  = (Fail faulty.no_such_event,
     after_calls scenario.warm_cache [call_ConstructPayload [scenario.amount]]).
Proof.
  apply (Execute_payload_error _ (faulty.cold_trigger scenario.billFn)
           context.Background scenario.events scenario.billFn [scenario.amount]
           faulty.no_such_event scenario.warm_cache); reflexivity.
Defined.

(** X9: where the errors of [Execute] come from. An error it returns
    is one of its own two, for a resource of another type and for a nil
    payload specification, or it is, unwrapped, the error of the payload
    constructor or the error of the function call. *)
Theorem Execute_error_sources d t ctx events resource s e s' :
  Execute d t ctx events resource s = (Fail e, s') ->
  (is_GCPCloudFunctionTrigger resource = false /\
   e = errors_New "failed to interpret the trigger resource") \/
  exists trigger,
    resource = iface_GCPCloudFunctionTrigger (Some trigger) /\
    ((v1alpha1.Payload trigger = None /\
      e = errors_New "payload parameters are not specified") \/
     exists params,
       v1alpha1.Payload trigger = Some params /\
       (ConstructPayload d events params = inr e \/
        exists payload svc,
          ConstructPayload d events params = inl payload /\
          Service t = Some svc /\
          Functions_Call_Do d None svc (v1alpha1.FunctionName trigger)
            {| cloudfunctions.Data := string_of_list_byte payload |} = inr e)).
Proof.
  paths; intros; simplify_eq; try (by left).
  all: right; eexists; split; [ reflexivity | ].
  all: try (by left).
  all: right; eexists; split; [ eassumption | ].
  all: try (by left).
  all: right; eexists _, _; by repeat split.
Qed.

Lemma Execute_error_sources_witness :
  (is_GCPCloudFunctionTrigger (iface_GCPCloudFunctionTrigger (Some scenario.billFn))
     = false /\
   faulty.unauthorized = errors_New "failed to interpret the trigger resource") \/
  exists trigger,
    iface_GCPCloudFunctionTrigger (Some scenario.billFn)
      = iface_GCPCloudFunctionTrigger (Some trigger) /\
    ((v1alpha1.Payload trigger = None /\
      faulty.unauthorized = errors_New "payload parameters are not specified") \/
     exists params,
       v1alpha1.Payload trigger = Some params /\
       (ConstructPayload
          (faulty.deps {| faulty.NewService_error := None;
                          faulty.ApplyParams_error := None;
                          faulty.Unmarshal_error := None;
                          faulty.ConstructPayload_error := None;
                          faulty.Call_error := Some faulty.unauthorized |})
          scenario.events params = inr faulty.unauthorized \/
        exists payload svc,
          ConstructPayload
            (faulty.deps {| faulty.NewService_error := None;
                            faulty.ApplyParams_error := None;
                            faulty.Unmarshal_error := None;
                            faulty.ConstructPayload_error := None;
                            faulty.Call_error := Some faulty.unauthorized |})
            scenario.events params = inl payload /\
          Service (scenario.warm_trigger scenario.billFn) = Some svc /\
          Functions_Call_Do
            (faulty.deps {| faulty.NewService_error := None;
                            faulty.ApplyParams_error := None;
                            faulty.Unmarshal_error := None;
                            faulty.ConstructPayload_error := None;
                            faulty.Call_error := Some faulty.unauthorized |})
            None svc (v1alpha1.FunctionName trigger)
            {| cloudfunctions.Data := string_of_list_byte payload |}
          = inr faulty.unauthorized)).
Proof.
  exact (Execute_error_sources
           (faulty.deps {| faulty.NewService_error := None;
                           faulty.ApplyParams_error := None;
                           faulty.Unmarshal_error := None;
                           faulty.ConstructPayload_error := None;
                           faulty.Call_error := Some faulty.unauthorized |})
           (scenario.warm_trigger scenario.billFn) context.Background
           scenario.events
           (iface_GCPCloudFunctionTrigger (Some scenario.billFn))
           scenario.warm_cache faulty.unauthorized _ eq_refl).
Defined.

(** X11: the footprint of [Execute]. Whatever it is given, it leaves
    the client cache alone and makes no call, or the payload
    construction alone, or the payload construction followed by one
    function call. *)
Theorem Execute_footprint d t ctx events resource s :
  exists made,
    snd (Execute d t ctx events resource s) = after_calls s made /\
    (made = [] \/
     exists trigger params,
       resource = iface_GCPCloudFunctionTrigger (Some trigger) /\
       v1alpha1.Payload trigger = Some params /\
       (made = [call_ConstructPayload params] \/
        exists svc payload,
          ConstructPayload d events params = inl payload /\
          made = execution_calls trigger params svc payload)).
Proof.
  paths.
  all: try (exists []; split; [ symmetry; apply (after_no_calls _) | by left ]).
  all: eexists; rewrite <- ?app_assoc; (split; [ reflexivity | ]).
  all: right; eexists _, _; split; [ reflexivity | split; [ eassumption | ] ].
  all: try (by left).
  all: right; by eexists _, _.
Qed.

(** X12: what [ApplyResourceParameters] returns when the template
    declares bindings. It succeeds exactly when the resource marshals,
    the bindings apply to those bytes and the updated bytes unmarshal;
    the result is then the unmarshalled trigger, of type
    [*v1alpha1.GCPCloudFunctionTrigger] whatever the type of the
    resource was, and the one call made is the parameter application. *)
Theorem ApplyResourceParameters_resolved d t g ps events resource s v s' :
  trigger_for t g ->
  v1alpha1.Parameters g = Some ps ->
  ApplyResourceParameters d t events resource s = (Ret v, s') <->
  exists b b' ht,
    json_Marshal d resource = inl b /\
    ApplyParams d b ps events = inl b' /\
    json_Unmarshal_GCPCloudFunctionTrigger d b' = inl ht /\
    v = iface_GCPCloudFunctionTrigger ht /\
    s' = after_calls s [call_ApplyParams b ps].
Proof.
  intros (tr & tpl & Htr & Htpl & Hg) Hps. split.
  - run. rewrite Htr. destruct (json_Marshal d resource) as [b | ]; [ | done ].
    simpl. rewrite Htpl; simpl. rewrite Hg; simpl. rewrite Hps; simpl.
    destruct (ApplyParams d b ps events) as [b' | ] eqn:Happly; [ | done ].
    simpl.
    destruct (json_Unmarshal_GCPCloudFunctionTrigger d b') as [ht | ] eqn:Hun;
      [ | done ].
    intros [= <- <-]. by exists b, b', ht.
  - intros (b & b' & ht & Hm & Happly & Hun & -> & ->). run.
    rewrite Hm, Htr; simpl. rewrite Htpl; simpl. rewrite Hg; simpl.
    rewrite Hps; simpl. rewrite Happly; simpl. by rewrite Hun.
Qed.

Lemma ApplyResourceParameters_resolved_witness :
  trigger_for (scenario.warm_trigger scenario.billFn_bound) scenario.billFn_bound /\
  v1alpha1.Parameters scenario.billFn_bound = Some [scenario.amount] /\
  ApplyResourceParameters (scenario.deps scenario.volume_ready)
    (scenario.warm_trigger scenario.billFn_bound) scenario.events
    (iface_GCPCloudFunctionTrigger (Some scenario.billFn_bound))
    scenario.warm_cache
  = (Ret (iface_GCPCloudFunctionTrigger (Some scenario.billFn_bound)),
     after_calls scenario.warm_cache
       [call_ApplyParams (list_byte_of_string "functionName=billFn")
          [scenario.amount]]).
Proof.
  assert (Hfor : trigger_for (scenario.warm_trigger scenario.billFn_bound)
                   scenario.billFn_bound).
  { eexists _, _. repeat split; reflexivity. }
  split; [ exact Hfor | split; [ reflexivity | ] ].
  apply (ApplyResourceParameters_resolved (scenario.deps scenario.volume_ready)
           (scenario.warm_trigger scenario.billFn_bound) scenario.billFn_bound
           [scenario.amount] scenario.events
           (iface_GCPCloudFunctionTrigger (Some scenario.billFn_bound))
           scenario.warm_cache _ _ Hfor eq_refl).
  exists (list_byte_of_string "functionName=billFn"),
    (list_byte_of_string "functionName=billFn"), (Some scenario.billFn_bound).
  repeat split; reflexivity.
Defined.

(** A resource of another type with bindings declared: the bytes of
    [true] do not unmarshal into the trigger struct, and the wrapped
    error of [json.Unmarshal] comes back. *)
Example ApplyResourceParameters_resolves_no_bool :
  exists cause,
    fst (ApplyResourceParameters (scenario.deps scenario.volume_ready)
           (scenario.warm_trigger scenario.billFn_bound) scenario.events
           (iface_bool true) scenario.warm_cache)
    = Fail (errors_Wrap cause
              "failed to unmarshal the updated GCP cloud function trigger resource after applying resource parameters").
Proof. eexists. reflexivity. Qed.

(** X13: where the errors of [ApplyResourceParameters] come from. An
    error it returns is the wrapped error of [json.Marshal], made before
    anything else is looked at; or, with bindings declared, the error of
    the parameter application as it is, or the wrapped error of
    [json.Unmarshal] on the updated bytes. *)
Theorem ApplyResourceParameters_error_sources d t events resource s e s' :
  ApplyResourceParameters d t events resource s = (Fail e, s') ->
  (exists cause,
     json_Marshal d resource = inr cause /\ s' = s /\
     e = errors_Wrap cause
           "failed to marshal the GCP cloud function trigger resource") \/
  exists b g ps,
    json_Marshal d resource = inl b /\
    trigger_for t g /\ v1alpha1.Parameters g = Some ps /\
    s' = after_calls s [call_ApplyParams b ps] /\
    (ApplyParams d b ps events = inr e \/
     exists b' cause,
       ApplyParams d b ps events = inl b' /\
       json_Unmarshal_GCPCloudFunctionTrigger d b' = inr cause /\
       e = errors_Wrap cause
             "failed to unmarshal the updated GCP cloud function trigger resource after applying resource parameters").
Proof.
  unfold trigger_for.
  paths; intros; simplify_eq; try (by left; eexists).
  all: right; eexists _, _, _; split; [ reflexivity | ].
  all: split; [ by eexists _, _ | split; [ eassumption | split; [ reflexivity | ] ] ].
  - right. by eexists _, _.
  - by left.
Qed.

Lemma ApplyResourceParameters_error_sources_witness :
  ApplyResourceParameters
    (faulty.deps {| faulty.NewService_error := None;
                    faulty.ApplyParams_error := Some faulty.no_such_event;
                    faulty.Unmarshal_error := None;
                    faulty.ConstructPayload_error := None;
                    faulty.Call_error := None |})
    (scenario.warm_trigger scenario.billFn_bound) scenario.events
    (iface_GCPCloudFunctionTrigger (Some scenario.billFn_bound))
    scenario.warm_cache
  = (Fail faulty.no_such_event,
     after_calls scenario.warm_cache
       [call_ApplyParams (list_byte_of_string "functionName=billFn")
          [scenario.amount]]) /\
  exists b g ps,
    json_Marshal
      (faulty.deps {| faulty.NewService_error := None;
                      faulty.ApplyParams_error := Some faulty.no_such_event;
                      faulty.Unmarshal_error := None;
                      faulty.ConstructPayload_error := None;
                      faulty.Call_error := None |})
      (iface_GCPCloudFunctionTrigger (Some scenario.billFn_bound)) = inl b /\
    trigger_for (scenario.warm_trigger scenario.billFn_bound) g /\
    v1alpha1.Parameters g = Some ps.
Proof.
  split; [ reflexivity | ].
  destruct (ApplyResourceParameters_error_sources
              (faulty.deps {| faulty.NewService_error := None;
                              faulty.ApplyParams_error := Some faulty.no_such_event;
                              faulty.Unmarshal_error := None;
                              faulty.ConstructPayload_error := None;
                              faulty.Call_error := None |})
              (scenario.warm_trigger scenario.billFn_bound) scenario.events
              (iface_GCPCloudFunctionTrigger (Some scenario.billFn_bound))
              scenario.warm_cache faulty.no_such_event _ eq_refl)
    as [(cause & Hm & _) | (b & g & ps & Hm & Hfor & Hps & _)].
  - discriminate Hm.
  - by exists b, g, ps.
Defined.

(** X14: fetching and then resolving, for a template without
    bindings, is the template's cloud function itself: [FetchResource]
    followed by [ApplyResourceParameters] returns it, makes no call and
    leaves the state as it was; the resource of a fetch always
    marshals. *)
Theorem FetchResource_then_ApplyResourceParameters d t g ctx events s :
  trigger_for t g ->
  v1alpha1.Parameters g = None ->
  (let! resource := FetchResource t ctx in
   ApplyResourceParameters d t events resource) s
  = (Ret (iface_GCPCloudFunctionTrigger (Some g)), s).
Proof.
  intros (tr & tpl & Htr & Htpl & Hg) Hnil. run.
  repeat (progress (simpl; rewrite ?Htr, ?Htpl, ?Hg, ?Hnil)). reflexivity.
Qed.

Lemma FetchResource_then_ApplyResourceParameters_witness :
  trigger_for (scenario.warm_trigger scenario.billFn) scenario.billFn /\
  (let! resource :=
     FetchResource (scenario.warm_trigger scenario.billFn) context.Background in
   ApplyResourceParameters (scenario.deps scenario.volume_ready)
     (scenario.warm_trigger scenario.billFn) scenario.events resource)
    scenario.warm_cache
  = (Ret (iface_GCPCloudFunctionTrigger (Some scenario.billFn)),
     scenario.warm_cache).
Proof.
  assert (Hfor : trigger_for (scenario.warm_trigger scenario.billFn) scenario.billFn).
  { eexists _, _. repeat split; reflexivity. }
  split; [ exact Hfor | ].
  exact (FetchResource_then_ApplyResourceParameters
           (scenario.deps scenario.volume_ready)
           (scenario.warm_trigger scenario.billFn) scenario.billFn
           context.Background scenario.events scenario.warm_cache Hfor eq_refl).
Defined.

(** X15: the four stages in a row, for a template with bindings. The
    function that is called, and the payload specification that is
    resolved, are those of the resource that the parameter application
    produced, not those of the template; the policy stage then accepts
    the response. The calls are the parameter application, the payload
    construction and the function call, in this order. *)
Theorem four_stages_with_bindings
    d t g ps g' params payload svc response ctx events b' s :
  trigger_for t g ->
  v1alpha1.Parameters g = Some ps ->
  ApplyParams d (json_encode_GCPCloudFunctionTrigger d g) ps events = inl b' ->
  json_Unmarshal_GCPCloudFunctionTrigger d b' = inl (Some g') ->
  v1alpha1.Payload g' = Some params ->
  ConstructPayload d events params = inl payload ->
  Service t = Some svc ->
  Functions_Call_Do d None svc (v1alpha1.FunctionName g')
    {| cloudfunctions.Data := string_of_list_byte payload |} = inl response ->
  (let! resource := FetchResource t ctx in
   let! resolved := ApplyResourceParameters d t events resource in
   let! response := Execute d t ctx events resolved in
   ApplyPolicy t ctx response) s
  = (Ret None,
     after_calls s
       (call_ApplyParams (json_encode_GCPCloudFunctionTrigger d g) ps
        :: execution_calls g' params svc payload)).
Proof.
  intros (tr & tpl & Htr & Htpl & Hg) Hps Happly Hun Hp Hc Hsvc Hcall. run.
  repeat (progress (simpl; rewrite ?Htr, ?Htpl, ?Hg, ?Hps, ?Happly, ?Hun, ?Hp,
                      ?Hc, ?Hsvc, ?Hcall)).
  by rewrite <- !app_assoc.
Qed.

Lemma four_stages_with_bindings_witness :
  trigger_for (scenario.warm_trigger scenario.billFn_bound) scenario.billFn_bound /\
  (let! resource :=
     FetchResource (scenario.warm_trigger scenario.billFn_bound)
       context.Background in
   let! resolved :=
     ApplyResourceParameters (scenario.deps scenario.volume_ready)
       (scenario.warm_trigger scenario.billFn_bound) scenario.events resource in
   let! response :=
     Execute (scenario.deps scenario.volume_ready)
       (scenario.warm_trigger scenario.billFn_bound) context.Background
       scenario.events resolved in
   ApplyPolicy (scenario.warm_trigger scenario.billFn_bound) context.Background
     response) scenario.warm_cache
  = (Ret None,
     after_calls scenario.warm_cache
       (call_ApplyParams (list_byte_of_string "functionName=billFn")
          [scenario.amount]
        :: execution_calls scenario.billFn_bound [scenario.amount]
             scenario.cached_client (list_byte_of_string "amount=42"))).
Proof.
  assert (Hfor : trigger_for (scenario.warm_trigger scenario.billFn_bound)
                   scenario.billFn_bound).
  { eexists _, _. repeat split; reflexivity. }
  split; [ exact Hfor | ].
  exact (four_stages_with_bindings (scenario.deps scenario.volume_ready)
           (scenario.warm_trigger scenario.billFn_bound) scenario.billFn_bound
           [scenario.amount] scenario.billFn_bound [scenario.amount]
           (list_byte_of_string "amount=42") scenario.cached_client scenario.OK
           context.Background scenario.events
           (list_byte_of_string "functionName=billFn") scenario.warm_cache
           Hfor eq_refl eq_refl eq_refl eq_refl eq_refl eq_refl eq_refl).
Defined.

(** X16: a trigger built on a warm cache executes with the cached
    client: construction on a hit followed by [Execute] calls the
    function on the client the cache held, and the only calls of the two
    together are those of the execution. *)
Theorem construct_then_Execute_uses_cached_client
    d sensor tr tpl logger ctx events trigger params payload svc response s :
  v1alpha1.Template tr = Some tpl ->
  cache_hit s (v1alpha1.Name tpl) (Some svc) ->
  v1alpha1.Payload trigger = Some params ->
  ConstructPayload d events params = inl payload ->
  Functions_Call_Do d None svc (v1alpha1.FunctionName trigger)
    {| cloudfunctions.Data := string_of_list_byte payload |} = inl response ->
  (let! t := NewGCPCloudFunctionTrigger d sensor (Some tr) logger in
   Execute d t ctx events (iface_GCPCloudFunctionTrigger (Some trigger))) s
  = (Ret (iface_CallFunctionResponse (Some response)),
     after_calls s (execution_calls trigger params svc payload)).
Proof.
  intros Htpl (m & Hm & Hhit) Hp Hc Hcall. run.
  rewrite Htpl; simpl. rewrite Hm, Hhit; simpl. rewrite Hp; simpl.
  rewrite Hc; simpl. rewrite Hcall; simpl. rewrite Hm.
  by rewrite <- app_assoc.
Qed.

Lemma construct_then_Execute_uses_cached_client_witness :
  cache_hit scenario.warm_cache "bill" (Some scenario.cached_client) /\
  (let! t :=
     NewGCPCloudFunctionTrigger (scenario.deps scenario.volume_ready)
       (Some scenario.sensor) (Some (scenario.trigger_of scenario.billFn))
       scenario.logger in
   Execute (scenario.deps scenario.volume_ready) t context.Background
     scenario.events (iface_GCPCloudFunctionTrigger (Some scenario.billFn)))
    scenario.warm_cache
  = (Ret (iface_CallFunctionResponse (Some scenario.OK)),
     after_calls scenario.warm_cache
       (execution_calls scenario.billFn [scenario.amount] scenario.cached_client
          (list_byte_of_string "amount=42"))).
Proof.
  assert (Hhit : cache_hit scenario.warm_cache "bill" (Some scenario.cached_client)).
  { eexists. split; [ reflexivity | ]. vm_compute. reflexivity. }
  split; [ exact Hhit | ].
  exact (construct_then_Execute_uses_cached_client
           (scenario.deps scenario.volume_ready) (Some scenario.sensor)
           (scenario.trigger_of scenario.billFn)
           (scenario.template_of scenario.billFn) scenario.logger
           context.Background scenario.events scenario.billFn [scenario.amount]
           (list_byte_of_string "amount=42") scenario.cached_client scenario.OK
           scenario.warm_cache eq_refl Hhit eq_refl eq_refl eq_refl).
Defined.

End stage_facts.

(** ** More on the version lookups *)

Module config_facts.
Import controllers controllers_facts.

Lemma append_jetstream_versions_map vs result :
  append_jetstream_versions vs result = (result ++ map JetStream_Version vs)%list.
Proof.
  revert result. induction vs as [ | v vs IH]; intros result.
  - by rewrite app_nil_r.
  - unfold append_jetstream_versions in *. simpl. rewrite IH.
    by rewrite <- app_assoc.
Qed.

Lemma supportedJetStreamVersions_map g eb js :
  EventBus g = Some eb -> JetStream eb = Some js ->
  supportedJetStreamVersions g = map JetStream_Version (JetStream_Versions js).
Proof.
  intros Heb Hjs. unfold supportedJetStreamVersions.
  rewrite Heb, Hjs. by rewrite append_jetstream_versions_map.
Qed.

Lemma first_jetstream_version_Some version vs r :
  first_jetstream_version version vs = Some r <->
  exists before after,
    vs = (before ++ r :: after)%list /\ JetStream_Version r = version /\
    Forall (fun x => JetStream_Version x <> version) before.
Proof.
  induction vs as [ | x vs IH]; simpl.
  - split; [ discriminate | ].
    intros (before & after & Hvs & _). by destruct before.
  - destruct (decide (JetStream_Version x = version)) as [Heq | Hne].
    + split.
      * intros [= ->]. exists [], vs. by repeat split.
      * intros (before & after & Hvs & Hr & Hbefore).
        destruct before as [ | y before]; simpl in Hvs.
        -- by inversion Hvs.
        -- inversion Hvs; subst y. inversion Hbefore; subst. contradiction.
    + rewrite IH. split.
      * intros (before & after & -> & Hr & Hbefore).
        exists (x :: before), after. repeat split; [ done | by constructor ].
      * intros (before & after & Hvs & Hr & Hbefore).
        destruct before as [ | y before]; simpl in Hvs.
        -- inversion Hvs; subst x. contradiction.
        -- inversion Hvs; subst y vs. inversion Hbefore; subst.
           by exists before, after.
Qed.

Lemma first_jetstream_version_None version vs :
  first_jetstream_version version vs = None <->
  version ∉ map JetStream_Version vs.
Proof.
  induction vs as [ | x vs IH]; simpl.
  - split; [ intros _; apply not_elem_of_nil | done ].
  - rewrite not_elem_of_cons.
    destruct (decide (JetStream_Version x = version)) as [Heq | Hne].
    + split; [ discriminate | ]. intros [Hne _]. congruence.
    + rewrite IH. split; [ intros Hnot; split; [ congruence | done ] | by intros [_ ?] ].
Qed.

Lemma first_version_None_supported version vs :
  first_version version vs = None <-> version ∉ map Version vs.
Proof.
  induction vs as [ | x vs IH]; simpl.
  - split; [ intros _; apply not_elem_of_nil | done ].
  - rewrite not_elem_of_cons.
    destruct (decide (Version x = version)) as [Heq | Hne].
    + split; [ discriminate | ]. intros [Hne _]. congruence.
    + rewrite IH. split; [ intros Hnot; split; [ congruence | done ] | by intros [_ ?] ].
Qed.

(** X17: [GetJetStreamVersion] returns an entry, and no error, exactly
    when the configuration has an [EventBus] with a [JetStream] section
    whose versions hold an entry of the wanted version; the entry
    returned is the first such entry; and when the lookup fails although
    the section is there and its list is not empty, the text of the error
    carries the quoted wanted version and the quoted, comma-joined
    version strings of all entries in the order of the list. *)
Theorem GetJetStreamVersion_spec q g version :
  ((exists r, GetJetStreamVersion q g version = Ret r) <->
   (exists eb js r,
      EventBus g = Some eb /\ JetStream eb = Some js /\
      r ∈ JetStream_Versions js /\ JetStream_Version r = version)) /\
  (forall r, GetJetStreamVersion q g version = Ret r ->
     exists eb js before after,
       EventBus g = Some eb /\ JetStream eb = Some js /\
       JetStream_Versions js = (before ++ r :: after)%list /\
       JetStream_Version r = version /\
       Forall (fun x => JetStream_Version x <> version) before) /\
  (forall e eb js,
     GetJetStreamVersion q g version = Fail e ->
     EventBus g = Some eb -> JetStream eb = Some js ->
     JetStream_Versions js <> [] ->
     Error e = "unsupported version " ++ q version ++ ", supported versions: " ++
               q (strings_Join (map JetStream_Version (JetStream_Versions js)) ",")).
Proof.
  unfold GetJetStreamVersion.
  destruct (EventBus g) as [eb | ] eqn:Heb.
  2: { split; [ split | split ].
       - intros [r Hr]. discriminate Hr.
       - intros (eb & js & r & Hf & _). discriminate Hf.
       - intros r Hr. discriminate Hr.
       - intros e eb js _ Hf. discriminate Hf. }
  destruct (JetStream eb) as [js | ] eqn:Hjs.
  2: { split; [ split | split ].
       - intros [r Hr]. discriminate Hr.
       - intros (eb' & js & r & [= <-] & Hf & _). congruence.
       - intros r Hr. discriminate Hr.
       - intros e eb' js _ [= <-] Hf. congruence. }
  assert (Hsup : supportedJetStreamVersions g
                 = map JetStream_Version (JetStream_Versions js))
    by (by apply (supportedJetStreamVersions_map g eb js)).
  destruct (JetStream_Versions js) as [ | v vs] eqn:Hvs; simpl.
  { split; [ split | split ].
    - intros [r Hr]. discriminate Hr.
    - intros (eb' & js' & r & [= <-] & Hn & Hin & _).
      assert (js' = js) as -> by congruence.
      rewrite Hvs in Hin. by apply elem_of_nil in Hin.
    - intros r Hr. discriminate Hr.
    - intros e eb' js' _ [= <-] Hn Hne.
      assert (js' = js) as -> by congruence. by rewrite Hvs in Hne. }
  change (if decide (JetStream_Version v = version) then Some v
          else first_jetstream_version version vs)
    with (first_jetstream_version version (v :: vs)).
  destruct (first_jetstream_version version (v :: vs)) as [r | ] eqn:Hfirst.
  - apply first_jetstream_version_Some in Hfirst as (before & after & Hl & Hv & Hb).
    split; [ split | split ].
    + intros _. exists eb, js, r. rewrite Hvs.
      split; [ done | ]. split; [ done | ]. split; [ | done ].
      rewrite Hl. apply elem_of_app. right. by left.
    + intros _. by exists r.
    + intros r' [= <-]. exists eb, js, before, after. by rewrite Hvs.
    + intros e eb' js' Hf. discriminate Hf.
  - apply first_jetstream_version_None in Hfirst.
    split; [ split | split ].
    + intros [r Hr]. discriminate Hr.
    + intros (eb' & js' & r & [= <-] & Hn & Hin & Hv).
      assert (js' = js) as -> by congruence. rewrite Hvs in Hin.
      destruct Hfirst. rewrite <- Hv. by apply list_elem_of_fmap_2.
    + intros r Hr. discriminate Hr.
    + intros e eb' js' [= <-] [= <-] Hn _.
      assert (js' = js) as -> by congruence.
      rewrite Hvs. simpl. unfold strings_Join. by rewrite Hsup.
Qed.

(** X18: the lookup and the list agree: [GetNatsStreamingVersion]
    finds a version exactly when [supportedNatsStreamingVersions] lists
    it, so its "unsupported version" text never names the wanted version
    among the supported ones. *)
Theorem GetNatsStreamingVersion_iff_supported q g version :
  (exists r, GetNatsStreamingVersion q g version = Ret r) <->
  version ∈ supportedNatsStreamingVersions g.
Proof.
  unfold GetNatsStreamingVersion, supportedNatsStreamingVersions.
  destruct (EventBus g) as [eb | ];
    [ | split; [ by intros [r Hr] | by intros Hin%elem_of_nil ] ].
  destruct (NATS eb) as [nats | ];
    [ | split; [ by intros [r Hr] | by intros Hin%elem_of_nil ] ].
  rewrite append_versions_map. simpl.
  destruct (Versions nats) as [ | v vs]; simpl;
    [ split; [ by intros [r Hr] | by intros Hin%elem_of_nil ] | ].
  change (if decide (Version v = version) then Some v else first_version version vs)
    with (first_version version (v :: vs)).
  change (Version v :: map Version vs) with (map Version (v :: vs)).
  destruct (first_version version (v :: vs)) as [r | ] eqn:Hfirst.
  - split; [ intros _ | by eexists ].
    apply first_version_Some in Hfirst as (before & after & -> & <- & _).
    apply list_elem_of_fmap_2. apply elem_of_app. right. by left.
  - apply first_version_None_supported in Hfirst.
    split; [ by intros [r Hr] | done ].
Qed.

(** X19: the same for JetStream: [GetJetStreamVersion] finds a version
    exactly when [supportedJetStreamVersions] lists it. *)
Theorem GetJetStreamVersion_iff_supported q g version :
  (exists r, GetJetStreamVersion q g version = Ret r) <->
  version ∈ supportedJetStreamVersions g.
Proof.
  unfold GetJetStreamVersion, supportedJetStreamVersions.
  destruct (EventBus g) as [eb | ];
    [ | split; [ by intros [r Hr] | by intros Hin%elem_of_nil ] ].
  destruct (JetStream eb) as [js | ];
    [ | split; [ by intros [r Hr] | by intros Hin%elem_of_nil ] ].
  rewrite append_jetstream_versions_map. simpl.
  destruct (JetStream_Versions js) as [ | v vs]; simpl;
    [ split; [ by intros [r Hr] | by intros Hin%elem_of_nil ] | ].
  change (if decide (JetStream_Version v = version) then Some v
          else first_jetstream_version version vs)
    with (first_jetstream_version version (v :: vs)).
  change (JetStream_Version v :: map JetStream_Version vs)
    with (map JetStream_Version (v :: vs)).
  destruct (first_jetstream_version version (v :: vs)) as [r | ] eqn:Hfirst.
  - split; [ intros _ | by eexists ].
    apply first_jetstream_version_Some in Hfirst as (before & after & -> & <- & _).
    apply list_elem_of_fmap_2. apply elem_of_app. right. by left.
  - apply first_jetstream_version_None in Hfirst.
    split; [ by intros [r Hr] | done ].
Qed.

(** X20: entries added at the end of the list change no answer that
    was an entry: a lookup that succeeds still returns the same entry
    after more versions are appended to the configuration. *)
Theorem GetNatsStreamingVersion_append q js vs more version r :
  GetNatsStreamingVersion q
    {| EventBus := Some {| NATS := Some {| Versions := vs |}; JetStream := js |} |}
    version = Ret r ->
  GetNatsStreamingVersion q
    {| EventBus := Some {| NATS := Some {| Versions := (vs ++ more)%list |};
                           JetStream := js |} |}
    version = Ret r.
Proof.
  unfold GetNatsStreamingVersion. simpl.
  destruct vs as [ | v vs]; [ discriminate | ]. simpl length. simpl Nat.eqb.
  cbv iota.
  destruct (first_version version (v :: vs)) as [r' | ] eqn:Hfirst; [ | discriminate ].
  intros [= ->].
  apply first_version_Some in Hfirst as (before & after & Hl & Hv & Hb).
  assert (Hfirst' : first_version version ((v :: vs) ++ more) = Some r).
  { apply first_version_Some. exists before, (after ++ more)%list.
    rewrite Hl. by rewrite <- app_assoc. }
  by rewrite Hfirst'.
Qed.

Lemma GetNatsStreamingVersion_append_witness :
  GetNatsStreamingVersion quote_plain (config_of [v0_22; v0_25]) "0.22.1"
    = Ret v0_22 /\
  GetNatsStreamingVersion quote_plain (config_of [v0_22; v0_25; v0_22_mirror])
    "0.22.1" = Ret v0_22.
Proof.
  split; [ reflexivity | ].
  exact (GetNatsStreamingVersion_append quote_plain None [v0_22; v0_25]
           [v0_22_mirror] "0.22.1" v0_22 eq_refl).
Defined.

(** X21: the two halves of the configuration do not mix: the NATS
    lookup and list are the same whatever the [JetStream] section is,
    and the JetStream lookup and list are the same whatever the [NATS]
    section is. *)
Theorem lookups_independent q g version nats js :
  GetNatsStreamingVersion q (set_JetStream g js) version
    = GetNatsStreamingVersion q g version /\
  supportedNatsStreamingVersions (set_JetStream g js)
    = supportedNatsStreamingVersions g /\
  GetJetStreamVersion q (set_NATS g nats) version
    = GetJetStreamVersion q g version /\
  supportedJetStreamVersions (set_NATS g nats)
    = supportedJetStreamVersions g.
Proof.
  unfold GetNatsStreamingVersion, GetJetStreamVersion,
    supportedNatsStreamingVersions, supportedJetStreamVersions,
    set_JetStream, set_NATS.
  destruct (EventBus g) as [eb | ]; simpl; [ | done ].
  repeat split; reflexivity.
Qed.

(** X22: the three failures of the NATS lookup and when each occurs.
    Without an [EventBus] or without its [NATS] section the error says
    that "eventBus.nats" is not in the configuration; with a section
    whose list is empty it says that the version configuration is not
    found; with a list that does not hold the version it is the
    "unsupported version" error that lists the versions. *)
Theorem GetNatsStreamingVersion_failures q g version e :
  GetNatsStreamingVersion q g version = Fail e ->
  (Error e = dquote ++ "eventBus.nats" ++ dquote ++ " not found in the configuration" /\
   (EventBus g = None \/ exists eb, EventBus g = Some eb /\ NATS eb = None)) \/
  (Error e = "nats streaming version configuration not found" /\
   exists eb nats,
     EventBus g = Some eb /\ NATS eb = Some nats /\ Versions nats = []) \/
  (e = unsupported_version q version (supportedNatsStreamingVersions g) /\
   exists eb nats,
     EventBus g = Some eb /\ NATS eb = Some nats /\ Versions nats <> [] /\
     version ∉ map Version (Versions nats)).
Proof.
  unfold GetNatsStreamingVersion.
  destruct (EventBus g) as [eb | ] eqn:Heb;
    [ | intros [= <-]; left; split; [ reflexivity | by left ] ].
  destruct (NATS eb) as [nats | ] eqn:Hnats;
    [ | intros [= <-]; left; split; [ reflexivity | right; by exists eb ] ].
  destruct (Versions nats) as [ | v vs] eqn:Hvs; simpl.
  - intros [= <-]. right; left. split; [ reflexivity | by exists eb, nats ].
  - change (if decide (Version v = version) then Some v
            else first_version version vs)
      with (first_version version (v :: vs)).
    destruct (first_version version (v :: vs)) eqn:Hfirst; [ discriminate | ].
    intros [= <-]. right; right. split; [ reflexivity | ].
    exists eb, nats. rewrite Hvs.
    apply first_version_None_supported in Hfirst. by repeat split.
Qed.

Lemma GetNatsStreamingVersion_failures_witness :
  let g := config_of [v0_22; v0_25] in
  let e := unsupported_version quote_plain "0.3" ["0.22.1"; "0.25.2"] in
  (Error e = dquote ++ "eventBus.nats" ++ dquote ++ " not found in the configuration" /\
   (EventBus g = None \/ exists eb, EventBus g = Some eb /\ NATS eb = None)) \/
  (Error e = "nats streaming version configuration not found" /\
   exists eb nats,
     EventBus g = Some eb /\ NATS eb = Some nats /\ Versions nats = []) \/
  (e = unsupported_version quote_plain "0.3" (supportedNatsStreamingVersions g) /\
   exists eb nats,
     EventBus g = Some eb /\ NATS eb = Some nats /\ Versions nats <> [] /\
     "0.3" ∉ map Version (Versions nats)).
Proof.
  exact (GetNatsStreamingVersion_failures quote_plain (config_of [v0_22; v0_25])
           "0.3" (unsupported_version quote_plain "0.3" ["0.22.1"; "0.25.2"])
           eq_refl).
Defined.

(** The JetStream lookup, run on a configuration with both sections. *)
Example GetJetStreamVersion_found :
  GetJetStreamVersion quote_plain
    (jetstream.config_of [v0_22] [jetstream.v2_8; jetstream.v2_9]) "2.9.1"
  = Ret jetstream.v2_9.
Proof. reflexivity. Qed.

Example GetJetStreamVersion_unsupported :
  exists e,
    GetJetStreamVersion quote_plain
      (jetstream.config_of [v0_22] [jetstream.v2_8; jetstream.v2_9]) "0.22.1"
    = Fail e /\
    Error e = "unsupported version " ++ dquote ++ "0.22.1" ++ dquote ++
              ", supported versions: " ++ dquote ++ "2.8.1,2.9.1" ++ dquote.
Proof. eexists. split; reflexivity. Qed.

Example GetJetStreamVersion_no_section :
  GetJetStreamVersion quote_plain (config_of [v0_22]) "2.8.1"
  = Fail (errors_New (dquote ++ "eventBus.jetstream" ++ dquote ++
                      " not found in the configuration")).
Proof. reflexivity. Qed.

End config_facts.

(** ** The parameter stage and its helper *)

Module parameter_stage_facts.
Import parameter_stage.

(** With a function as helper the stage is [ApplyResourceParameters] of
    [gcp_cloud_function], run with that function, and the environment is
    left alone. *)
Lemma ApplyResourceParameters_pure_helper {E : Type} d f t events resource
    (e : E) s :
  ApplyResourceParameters d (pure f) t events resource e s
  = (fst (gcp_cloud_function.ApplyResourceParameters (with_ApplyParams d f)
            t events resource s),
     (e, snd (gcp_cloud_function.ApplyResourceParameters (with_ApplyParams d f)
                t events resource s))).
Proof.
  unfold ApplyResourceParameters, gcp_cloud_function.ApplyResourceParameters.
  change (json_Marshal (with_ApplyParams d f) resource)
    with (json_Marshal d resource).
  destruct (json_Marshal d resource) as [b | err]; [ | reflexivity ].
  gcp_cloud_function_facts.run.
  destruct (gcp_cloud_function.Trigger t) as [tr | ]; [ | reflexivity ]. simpl.
  destruct (v1alpha1.Template tr) as [tpl | ]; [ | reflexivity ]. simpl.
  destruct (v1alpha1.GCPCloudFunction tpl) as [g | ]; [ | reflexivity ]. simpl.
  destruct (v1alpha1.Parameters g) as [ps | ]; [ | reflexivity ]. simpl.
  destruct (f b ps events) as [b' | err]; [ | reflexivity ]. simpl.
  destruct (json_Unmarshal_GCPCloudFunctionTrigger d b'); reflexivity.
Qed.




(** The condition on the helper cannot be dropped: with a helper that
    reads a clock, the same call made twice in a row resolves the first
    time and fails the second. *)
Lemma ApplyResourceParameters_follows_clocked_helper :
  ~ deterministic clocked_helper /\
  let first :=
    ApplyResourceParameters (scenario.deps scenario.volume_ready) clocked_helper
      (scenario.warm_trigger scenario.billFn_bound) scenario.events
      (iface_GCPCloudFunctionTrigger (Some scenario.billFn_bound))
      0 scenario.warm_cache in
  let second :=
    ApplyResourceParameters (scenario.deps scenario.volume_ready) clocked_helper
      (scenario.warm_trigger scenario.billFn_bound) scenario.events
      (iface_GCPCloudFunctionTrigger (Some scenario.billFn_bound))
      (fst (snd first)) (snd (snd first)) in
  fst first = Ret (iface_GCPCloudFunctionTrigger (Some scenario.billFn_bound)) /\
  fst second = Fail (errors_New "time: odd tick").
Proof.
  split; [ | split; reflexivity ].
  intros Hdet. specialize (Hdet [] [] ∅ 0 1). discriminate Hdet.
Qed.

End parameter_stage_facts.
